(** * Chat-with-PDF over SuperDuperDB: the retrieval pipeline

    A shallow embedding of [rag_superduperdb.py] (class [PDFDocumentHandler])
    and of the Streamlit glue of [ask_llm.py], with the properties of the
    design specification stated over it.

    Python objects become records, attributes that [__init__] does not
    assign become [option] fields, exceptions become the [Raise] branch of
    [Result], and methods that mutate [self] (or draw from the module-level
    random generator) live in a state-and-exception monad [M].  The
    libraries the code calls (requests, PyMuPDF, the semantic text splitter,
    the vector store, the chat model) are the fields of the class
    [External]. *)

From Stdlib Require Import Ascii String QArith Qround.
From stdpp Require Import strings gmap list pretty.
From Stdlib Require Import Sorted Permutation.
Close Scope Q_scope.
Open Scope string_scope.

(** ** Exceptions and results *)

Inductive exn : Type :=
| AttributeError (attr : string)
| UnboundLocalError (var : string)
| IndexError
| HTTPError (status : Z)
| RequestException (msg : string)
| FileDataError (msg : string)
| TypeError (msg : string)
| ExternalError (msg : string).

Inductive Result (A : Type) : Type :=
| Ok (a : A)
| Raise (e : exn).
Arguments Ok {A} a.
Arguments Raise {A} e.

Definition is_ok {A} (r : Result A) : bool :=
  match r with Ok _ => true | Raise _ => false end.

Definition rbind {A B} (r : Result A) (k : A -> Result B) : Result B :=
  match r with
  | Ok a => k a
  | Raise e => Raise e
  end.

Notation "x <~ c ;; k" := (rbind c (fun x => k))
  (at level 100, c at next level, right associativity).

(** ** Data model *)

Definition bytes := list Byte.byte.

(** A [requests.Response], as far as [download_pdf] looks at it. *)
Record Response : Type := mkResponse {
  status_code : Z;
  content : bytes
}.

(** The dictionaries that [chunk_text] builds: keys "text", "page", "url". *)
Record ChunkRecord : Type := mkChunk {
  text : string;
  page : nat;
  url : string
}.

(** A document returned by a [like(...).find()] query: the stored record
    and its similarity score, read as [r['score']]. *)
Record SearchResult : Type := mkResult {
  doc : ChunkRecord;
  score : Q
}.

(** [superduperdb.Model], as built by [initialize_model]. *)
Record Model : Type := mkModel {
  identifier : string;
  encoder_shape : nat;
  predict_method : string;
  batch_predict : bool
}.

(** What [db.add] registers. *)
Inductive Component : Type :=
| VectorIndex (ident : string) (select : string) (key : string)
              (listener_model : Model) (max_chunk_size : nat)
| OpenAIChatCompletion (ident : string) (prompt : string).

Definition component_identifier (c : Component) : string :=
  match c with
  | VectorIndex i _ _ _ _ => i
  | OpenAIChatCompletion i _ => i
  end.

(** The data layer returned by [superduper(...)]: the collections of the
    Mongo database, by name, and the components added so far, oldest
    first. *)
Record Datalayer : Type := mkDatalayer {
  collections : gmap string (list ChunkRecord);
  components : list Component
}.

(** The attributes of a [PDFDocumentHandler].  [doc_collection] and [model]
    are not assigned by [__init__]; [None] is the missing attribute. *)
Record PDFDocumentHandler : Type := mkHandler {
  mongodb_uri : string;
  artifact_store_path : string;
  db : Datalayer;
  doc_collection : option string;
  model : option Model
}.

(** The process state: the handler instance and the state of the [random]
    module, a tape of the values [random.random()] returns and the
    position of the next one.  A value of [random.random()] is a binary64
    number [m / 2^53] with [0 <= m < 2^53]. *)
Record World : Type := mkWorld {
  self : PDFDocumentHandler;
  random_tape : nat -> Q;
  random_pos : nat
}.

(** ** The state-and-exception monad *)

Definition M (A : Type) : Type := World -> Result A * World.

Definition ret {A} (a : A) : M A := fun w => (Ok a, w).
Definition raise {A} (e : exn) : M A := fun w => (Raise e, w).
Definition bind {A B} (c : M A) (k : A -> M B) : M B :=
  fun w => match c w with
           | (Ok a, w') => k a w'
           | (Raise e, w') => (Raise e, w')
           end.
Definition lift {A} (r : Result A) : M A := fun w => (r, w).
Definition get_self : M PDFDocumentHandler := fun w => (Ok (self w), w).
Definition put_self (h : PDFDocumentHandler) : M unit :=
  fun w => (Ok tt, mkWorld h (random_tape w) (random_pos w)).

Notation "x <- c ;; k" := (bind c (fun x => k))
  (at level 100, c at next level, right associativity).
Notation "c ;;; k" := (bind c (fun _ => k))
  (at level 100, right associativity).

(** Reading an attribute that may not have been assigned. *)
Definition getattr {A} (name : string) (field : PDFDocumentHandler -> option A) : M A :=
  h <- get_self ;;
  match field h with
  | Some a => ret a
  | None => raise (AttributeError name)
  end.

(** ** The libraries the code calls *)

Class External : Type := {
  Page : Type;
  (** [superduper(uri, artifact_store=store)]: the data layer behind a URI. *)
  superduper : string -> string -> Datalayer;
  (** [requests.get(url)]: a response, or an exception of requests. *)
  requests_get : string -> Result Response;
  (** [fitz.open(stream=..., filetype="pdf")]: the pages of the document. *)
  fitz_open : bytes -> Result (list Page);
  (** [page.get_text()]. *)
  get_text : Page -> string;
  (** [SemanticChunker.create_documents(texts)]: the [page_content] of the
      documents it returns. *)
  create_documents : list string -> list string;
  (** [db.execute(collection.like(Document({'text': q}), vector_index=i, n=n).find())]. *)
  like_find : Datalayer -> string -> string -> string -> Z -> list SearchResult;
  (** What the constructor [OpenAIChatCompletion(identifier=..., prompt=...)]
      checks before it returns the component: identifier, prompt. *)
  openai_chat_completion : string -> string -> Result unit;
  (** The chat completion behind [db.predict]: prompt, context, input. *)
  chat_predict : string -> list string -> string -> Result string
}.

(** ** Python built-ins used by the code *)

(** [enumerate(l, start)]. *)
Fixpoint enumerate {A} (l : list A) (start : nat) : list (nat * A) :=
  match l with
  | [] => []
  | x :: l' => (start, x) :: enumerate l' (S start)
  end.

(** [Response.raise_for_status()]; in the words of [download_pdf]: "Raises
    an HTTPError if the response status code is 4XX/5XX". *)
Definition raise_for_status (r : Response) : Result unit :=
  if ((400 <=? status_code r)%Z && (status_code r <? 600)%Z)%bool
  then Raise (HTTPError (status_code r))
  else Ok tt.

(** [random.random()]: the next value of the tape. *)
Definition random_random : M Q :=
  fun w => (Ok (random_tape w (random_pos w)),
            mkWorld (self w) (random_tape w) (S (random_pos w))).

(** [2^53]: the draws of [random.random()] are the multiples of [1 / 2^53]
    below 1. *)
Definition two53 : Z := 9007199254740992.

(** The draw [m / 2^53]. *)
Definition draw (m : Z) : Q := m # 9007199254740992.

(** The values [random.random()] can return. *)
Definition is_draw (r : Q) : Prop :=
  exists m, (0 <= m < two53)%Z /\ (r == draw m)%Q.

(** The integer [m] of a draw [m / 2^53]. *)
Definition draw_bits (r : Q) : Z := Qfloor (r * inject_Z two53).

(** Rounding of a non-negative integer to 53 significant bits, to nearest
    and ties to even: what binary64 keeps of an exact product. *)
Definition round_to_53_bits (p : Z) : Z :=
  if (p <? two53)%Z then p
  else
    let s := (Z.log2 p - 52)%Z in
    let q := (p / 2 ^ s)%Z in
    let rem := (p mod 2 ^ s)%Z in
    let half := (2 ^ (s - 1))%Z in
    ((if (rem <? half)%Z then q
      else if (half <? rem)%Z then q + 1
      else if Z.even q then q else q + 1) * 2 ^ s)%Z.

(** [floor(r * n)], the position [random.choices] picks for the draw [r]
    in a population of [n].  The product is the binary64 product of
    [r = m / 2^53] and [float(n)]: the exact [n * m / 2^53] with [n * m]
    rounded to 53 significant bits. *)
Definition choice_index (n : nat) (r : Q) : nat :=
  Z.to_nat (round_to_53_bits (Z.of_nat n * draw_bits r) / two53).

(** [random.choices(population, k=k)]:
    [[population[floor(random() * n)] for _ in range(k)]]. *)
Fixpoint random_choices (population : list ascii) (k : nat) : M (list ascii) :=
  match k with
  | O => ret []
  | S k' =>
      r <- random_random ;;
      match population !! choice_index (length population) r with
      | Some c => rest <- random_choices population k' ;; ret (c :: rest)
      | None => raise IndexError
      end
  end.

(** [string.ascii_lowercase]. *)
Definition ascii_lowercase : list ascii :=
  list_ascii_of_string "abcdefghijklmnopqrstuvwxyz".

(** [''.join(chars)]. *)
Definition join_chars (l : list ascii) : string := string_of_list_ascii l.

(** [sorted(l, key=key)]: stable, ascending in the key. *)
Fixpoint insert_by {A} (key : A -> Q) (x : A) (l : list A) : list A :=
  match l with
  | [] => [x]
  | y :: l' => if Qle_bool (key x) (key y) then x :: y :: l'
               else y :: insert_by key x l'
  end.

Fixpoint sorted {A} (key : A -> Q) (l : list A) : list A :=
  match l with
  | [] => []
  | x :: l' => insert_by key x (sorted key l')
  end.

(** The order [sorted] puts a list in. *)
Definition key_le {A} (key : A -> Q) (a b : A) : Prop := (key a <= key b)%Q.

(** [s.split(sep)] for a one-character separator. *)
Fixpoint str_split (sep : ascii) (s : string) : list string :=
  match s with
  | EmptyString => [""]
  | String c s' =>
      if Ascii.eqb c sep then "" :: str_split sep s'
      else match str_split sep s' with
           | [] => [String c ""]
           | h :: t => String c h :: t
           end
  end.

(** Truth value of a list and of a string. *)
Definition bool_of_list {A} (l : list A) : bool :=
  match l with [] => false | _ => true end.
Definition bool_of_str (s : string) : bool :=
  match s with EmptyString => false | _ => true end.

(** [sep.join(l)]. *)
Definition str_join (sep : string) (l : list string) : string := String.concat sep l.

(** A line feed, the separator the glue joins and splits on. *)
Definition LF : ascii := ascii_of_nat 10.
Definition nl : string := String LF "".

(** ** rag_superduperdb.py: class PDFDocumentHandler *)

Section Handler.
Context `{Ext : External}.

Definition initialize_database (uri store : string) : Datalayer :=
  superduper uri ("filesystem://" ++ store).

(** [__init__]: assigns [mongodb_uri], [artifact_store_path], [db] (and the
    text splitter, which is [create_documents]); nothing else. *)
Definition init (uri store : string) : PDFDocumentHandler :=
  {| mongodb_uri := uri;
     artifact_store_path := store;
     db := initialize_database uri store;
     doc_collection := None;
     model := None |}.

(** [PDFDocumentHandler()], with the default arguments. *)
Definition new_handler : PDFDocumentHandler := init "mongomock://test" "./data/".

Definition initialize_model : Model :=
  {| identifier := "all-MiniLM-L6-v2";
     encoder_shape := 384;
     predict_method := "encode";
     batch_predict := true |}.

Definition set_doc_collection (name : string) : M unit :=
  h <- get_self ;;
  put_self {| mongodb_uri := mongodb_uri h;
              artifact_store_path := artifact_store_path h;
              db := db h;
              doc_collection := Some name;
              model := model h |}.

Definition set_model (m : Model) : M unit :=
  h <- get_self ;;
  put_self {| mongodb_uri := mongodb_uri h;
              artifact_store_path := artifact_store_path h;
              db := db h;
              doc_collection := doc_collection h;
              model := Some m |}.

Definition set_db (d : Datalayer) : M unit :=
  h <- get_self ;;
  put_self {| mongodb_uri := mongodb_uri h;
              artifact_store_path := artifact_store_path h;
              db := d;
              doc_collection := doc_collection h;
              model := model h |}.

(** [self.db.add(component)]. *)
Definition db_add (c : Component) : M unit :=
  h <- get_self ;;
  set_db (mkDatalayer (collections (db h)) (components (db h) ++ [c])%list).

(** The data layer draws one value of [random.random()] for each document
    it is about to insert, to assign the document to a fold. *)
Fixpoint assign_folds (k : nat) : M unit :=
  match k with
  | O => ret tt
  | S k' => _ <- random_random ;; assign_folds k'
  end.

(** [self.db.execute(collection.insert_many(docs))]: the data layer assigns
    the folds, then the documents are appended to the named collection,
    which is created when absent; the collection refuses an empty list. *)
Definition db_insert_many (name : string) (docs : list ChunkRecord) : M unit :=
  assign_folds (length docs) ;;;
  match docs with
  | [] => raise (TypeError "documents must be a non-empty list")
  | _ :: _ =>
      h <- get_self ;;
      set_db (mkDatalayer
                (<[name := (default [] (collections (db h) !! name) ++ docs)%list]>
                   (collections (db h)))
                (components (db h)))
  end.

Definition set_collection_name : M unit :=
  chars <- random_choices ascii_lowercase 7 ;;
  set_doc_collection (join_chars chars).

Definition vector_index_identifier (m : Model) : string :=
  "pymongo-docs-" ++ identifier m.

Definition add_vector_index : M unit :=
  m <- getattr "model" model ;;
  c <- getattr "doc_collection" doc_collection ;;
  db_add (VectorIndex (vector_index_identifier m) c "text" m 1000).

Definition download_pdf (pdf_url : string) : Result bytes :=
  response <~ requests_get pdf_url ;;
  _ <~ raise_for_status response ;;
  Ok (content response).

Definition extract_text_with_page_numbers_from_url (pdf_url : string)
  : Result (list (string * nat)) :=
  pdf_bytes <~ download_pdf pdf_url ;;
  document <~ fitz_open pdf_bytes ;;
  Ok (fold_left
        (fun all_text_with_markers '(page_num, pg) =>
           (all_text_with_markers ++ [(get_text pg, page_num)])%list)
        (enumerate document 1) []).

Definition chunk_text (all_text_with_markers : list (string * nat)) (u : string)
  : list ChunkRecord :=
  let chunks_with_pages :=
    fold_left
      (fun acc '(txt, page_num) =>
         fold_left (fun acc' chunk => (acc' ++ [(chunk, page_num)])%list)
                   (create_documents [txt]) acc)
      all_text_with_markers [] in
  map (fun chunk => {| text := fst chunk; page := snd chunk; url := u |})
      chunks_with_pages.

Definition insert_documents (chunks_with_pages : list ChunkRecord) : M unit :=
  c <- getattr "doc_collection" doc_collection ;;
  db_insert_many c chunks_with_pages.

(** The [for] loop of [process_pdf].  The local [chunks_with_pages] is
    unbound ([None]) before the first iteration and is assigned anew by
    every iteration. *)
Fixpoint process_pdf_loop (pdf_urls : list string)
    (chunks_with_pages : option (list ChunkRecord)) : M (option (list ChunkRecord)) :=
  match pdf_urls with
  | [] => ret chunks_with_pages
  | pdf_url :: rest =>
      all_text_with_markers <- lift (extract_text_with_page_numbers_from_url pdf_url) ;;
      process_pdf_loop rest (Some (chunk_text all_text_with_markers pdf_url))
  end.

Definition process_pdf (pdf_urls : list string) : M unit :=
  set_collection_name ;;;
  set_model initialize_model ;;;
  add_vector_index ;;;
  chunks_with_pages <- process_pdf_loop pdf_urls None ;;
  match chunks_with_pages with
  | Some chunks => insert_documents chunks
  | None => raise (UnboundLocalError "chunks_with_pages")
  end.

(** [query_documents(search_term, num_results=1)]; [None] is the omitted
    argument.  [num_results] is a Python integer, handed to the store as it
    comes. *)
Definition query_documents (search_term : string) (num_results : option Z)
  : M (list SearchResult) :=
  c <- getattr "doc_collection" doc_collection ;;
  m <- getattr "model" model ;;
  h <- get_self ;;
  let result := like_find (db h) c search_term (vector_index_identifier m)
                          (default 1%Z num_results) in
  ret (sorted (fun r => - score r)%Q result).

Definition get_relevant_docs (pdf_list : list string) (search_term : string)
  : M (list SearchResult) :=
  process_pdf pdf_list ;;;
  query_documents search_term None.

Definition get_db : M Datalayer := h <- get_self ;; ret (db h).
Definition get_collection : M string := getattr "doc_collection" doc_collection.
Definition get_model : M Model := getattr "model" model.

(** ** The chunks of one page and the states [process_pdf] reaches *)

(** The records that one (text, page number) pair contributes. *)
Definition page_chunks (u : string) (tp : string * nat) : list ChunkRecord :=
  map (fun c => {| text := c; page := snd tp; url := u |}) (create_documents [fst tp]).

(** The handler once [process_pdf] has named the collection [c], bound the
    model and declared the index. *)
Definition prepared (h : PDFDocumentHandler) (c : string) : PDFDocumentHandler :=
  {| mongodb_uri := mongodb_uri h;
     artifact_store_path := artifact_store_path h;
     db := mkDatalayer
             (collections (db h))
             (components (db h)
                ++ [VectorIndex (vector_index_identifier initialize_model) c "text"
                                initialize_model 1000])%list;
     doc_collection := Some c;
     model := Some initialize_model |}.

(** The prepared handler once [chunks] have been inserted. *)
Definition ingested (h : PDFDocumentHandler) (c : string) (chunks : list ChunkRecord)
  : PDFDocumentHandler :=
  {| mongodb_uri := mongodb_uri h;
     artifact_store_path := artifact_store_path h;
     db := mkDatalayer
             (<[c := (default [] (collections (db h) !! c) ++ chunks)%list]>
                (collections (db h)))
             (components (db (prepared h c)));
     doc_collection := Some c;
     model := Some initialize_model |}.

(** ** ask_llm.py *)

Definition prompt : string :=
  "Use the following context and answer this question about context" ++ nl ++
  "Do not use any other information you might have learned about other python packages" ++ nl ++
  "Only base your answer on the code snippets retrieved and provide a very concise answer" ++ nl ++
  "{context}" ++ nl ++ nl ++
  "Here's the question:" ++ nl.

(** What [get_answer_from_pdf] returns: the answer, the page labels, the
    reference texts and the source URLs. *)
Record Answer : Type := mkAnswer {
  answer : string;
  links : string;
  refs : string;
  ref_url : string
}.

(** [db_instance], [db_collection] and [db_model] are the handler's own
    objects, so [db_instance.add] is [db_add] on the handler.  The chat
    component is constructed, which may raise, before it is added. *)
Definition get_answer_from_pdf (pdf_path : list string) (question : string) : M Answer :=
  relevant_docs <- get_relevant_docs pdf_path question ;;
  db_instance <- get_db ;;
  db_collection <- get_collection ;;
  db_model <- get_model ;;
  lift (openai_chat_completion "gpt-3.5-turbo" prompt) ;;;
  db_add (OpenAIChatCompletion "gpt-3.5-turbo" prompt) ;;;
  let num_results := 5%Z in
  h <- get_self ;;
  let sources := like_find (db h) db_collection question
                           (vector_index_identifier db_model) num_results in
  output <- lift (chat_predict prompt (map (fun r => text (doc r)) sources) question) ;;
  ret {| answer := output;
         links := str_join nl
                    (map (fun '(i, r) => "[" ++ pretty (i + 1) ++ "] Page " ++ pretty (page (doc r)))
                         (enumerate sources 0));
         refs := str_join nl (map (fun r => text (doc r)) sources);
         ref_url := str_join nl (map (fun r => url (doc r)) sources) |}.

(** The Streamlit script after its two input widgets: [None] when the
    [if] is not taken and nothing is rendered. *)
Definition main (pdf_urls_input question : string) : M (option Answer) :=
  let pdf_urls := str_split LF pdf_urls_input in
  if (bool_of_list pdf_urls && bool_of_str question)%bool
  then a <- get_answer_from_pdf pdf_urls question ;; ret (Some a)
  else ret None.

End Handler.


(** ** A concrete world

    A small instance of the libraries, used to run the code on concrete
    inputs.  Every URI opens an empty in-memory database, as "mongomock://test"
    does; pages are their text; the splitter cuts a text at blanks; the
    store scores a record by its page number, ranks the collection by
    score and returns the slice [[:n]] of the ranking; the chat component
    can always be constructed. *)

Module Demo.

Definition url_one : string := "http://a/one.pdf".
Definition url_two : string := "http://a/two.pdf".
Definition url_six : string := "http://a/six.pdf".
Definition url_missing : string := "http://a/missing.pdf".
Definition url_cached : string := "http://a/cached.pdf".

Definition get (u : string) : Result Response :=
  if String.eqb u url_one then Ok (mkResponse 200 [Byte.x31])
  else if String.eqb u url_two then Ok (mkResponse 200 [Byte.x32])
  else if String.eqb u url_six then Ok (mkResponse 200 [Byte.x36])
  else if String.eqb u url_missing then Ok (mkResponse 404 [])
  else if String.eqb u url_cached then Ok (mkResponse 304 [])
  else if String.eqb u "" then Raise (RequestException "MissingSchema")
  else Raise (RequestException "ConnectionError").

Definition open (b : bytes) : Result (list string) :=
  match b with
  | [Byte.x31] => Ok ["alpha beta"]
  | [Byte.x32] => Ok ["gamma"; "delta epsilon"]
  | [Byte.x36] => Ok ["p1"; "p2"; "p3"; "p4"; "p5"; "p6"]
  | _ => Raise (FileDataError "cannot open stream")
  end.

Definition split_documents (texts : list string) : list string :=
  flat_map (str_split " ") texts.

(** The slice [l[:n]] of Python. *)
Definition slice_to {A} (n : Z) (l : list A) : list A :=
  if (0 <=? n)%Z then take (Z.to_nat n) l
  else take (length l - Z.to_nat (- n)) l.

Definition search (d : Datalayer) (c q i : string) (n : Z) : list SearchResult :=
  slice_to n (sorted (fun r => - score r)%Q
                     (map (fun r => mkResult r (inject_Z (Z.of_nat (page r))))
                          (default [] (collections d !! c)))).

#[export] Instance world : External := {|
  Page := string;
  superduper := fun _ _ => mkDatalayer ∅ [];
  requests_get := get;
  fitz_open := open;
  get_text := fun p => p;
  create_documents := split_documents;
  like_find := search;
  openai_chat_completion := fun _ _ => Ok tt;
  chat_predict := fun _ _ _ => Ok "42"
|}.

(** Every draw of the random generator is 0: the letter chosen is "a". *)
Definition tape_zero : nat -> Q := fun _ => draw 0.

(** Draws that walk through the alphabet: the [i]-th is the first draw
    above [(i mod 26) / 26]. *)
Definition tape_walk : nat -> Q :=
  fun i => draw (Z.of_nat (i mod 26) * two53 / 26 + 1).

Definition start (tape : nat -> Q) : World := mkWorld new_handler tape 0.

(** The handler after one ingestion of the six-page document. *)
Definition six_ingested : World :=
  snd (process_pdf (Ext := world) [url_six] (start tape_walk)).

End Demo.

(** ** Lemmas on the built-ins *)

Lemma enumerate_length {A} (l : list A) (start : nat) :
  length (enumerate l start) = length l.
Proof.
  revert start; induction l as [|x l IH]; intros start; simpl; [reflexivity|].
  now rewrite IH.
Qed.

Lemma enumerate_fst {A} (l : list A) (start : nat) :
  map fst (enumerate l start) = seq start (length l).
Proof.
  revert start; induction l as [|x l IH]; intros start; simpl; [reflexivity|].
  now rewrite IH.
Qed.

Lemma enumerate_snd {A} (l : list A) (start : nat) :
  map snd (enumerate l start) = l.
Proof.
  revert start; induction l as [|x l IH]; intros start; simpl; [reflexivity|].
  now rewrite IH.
Qed.

Lemma str_split_nonempty (sep : ascii) (s : string) : str_split sep s <> [].
Proof.
  destruct s as [|c s]; simpl; [discriminate|].
  destruct (Ascii.eqb c sep); [discriminate|].
  destruct (str_split sep s); discriminate.
Qed.

(** *** Sorting *)

Section Sorting.
Context {A : Type} (key : A -> Q).

Lemma insert_by_length (x : A) (l : list A) :
  length (insert_by key x l) = S (length l).
Proof.
  induction l as [|y l IH]; simpl; [reflexivity|].
  destruct (Qle_bool (key x) (key y)); simpl; [reflexivity|].
  now rewrite IH.
Qed.

Lemma sorted_length (l : list A) : length (sorted key l) = length l.
Proof.
  induction l as [|x l IH]; simpl; [reflexivity|].
  now rewrite insert_by_length, IH.
Qed.

Lemma insert_by_perm (x : A) (l : list A) : Permutation (x :: l) (insert_by key x l).
Proof.
  induction l as [|y l IH]; simpl; [reflexivity|].
  destruct (Qle_bool (key x) (key y)); [reflexivity|].
  rewrite perm_swap. now apply perm_skip.
Qed.

Lemma sorted_perm (l : list A) : Permutation l (sorted key l).
Proof.
  induction l as [|x l IH]; simpl; [reflexivity|].
  rewrite <- insert_by_perm. now apply perm_skip.
Qed.

Lemma insert_by_Forall (P : A -> Prop) (x : A) (l : list A) :
  P x -> Forall P l -> Forall P (insert_by key x l).
Proof.
  intros Hx Hl. induction Hl as [|y l Hy Hl IH]; simpl.
  - repeat constructor; assumption.
  - destruct (Qle_bool (key x) (key y)); repeat constructor; assumption.
Qed.

Lemma insert_by_sorted (x : A) (l : list A) :
  StronglySorted (key_le key) l -> StronglySorted (key_le key) (insert_by key x l).
Proof.
  induction 1 as [|y l Hs IH Hy]; simpl.
  - repeat constructor.
  - destruct (Qle_bool (key x) (key y)) eqn:E.
    + apply Qle_bool_iff in E.
      constructor; [constructor; assumption|].
      constructor; [exact E|].
      eapply Forall_impl; [exact Hy|].
      intros z Hz. unfold key_le in *. eapply Qle_trans; eassumption.
    + assert (Hlt : (key y <= key x)%Q).
      { destruct (Qlt_le_dec (key y) (key x)) as [Hlt|Hle].
        - now apply Qlt_le_weak.
        - apply Qle_bool_iff in Hle. congruence. }
      constructor; [exact IH|].
      apply insert_by_Forall; assumption.
Qed.

Lemma sorted_sorted (l : list A) : StronglySorted (key_le key) (sorted key l).
Proof.
  induction l as [|x l IH]; simpl; [constructor|].
  now apply insert_by_sorted.
Qed.

End Sorting.

(** ** Extraction and chunking *)

Section Extraction.
Context `{Ext : External}.

Lemma extract_loop (document : list Page) (start : nat) (acc : list (string * nat)) :
  fold_left
    (fun all_text_with_markers '(page_num, pg) =>
       (all_text_with_markers ++ [(get_text pg, page_num)])%list)
    (enumerate document start) acc
  = (acc ++ map (fun '(page_num, pg) => (get_text pg, page_num))
                (enumerate document start))%list.
Proof.
  revert start acc; induction document as [|pg document IH]; intros start acc; simpl.
  - now rewrite app_nil_r.
  - rewrite IH, <- app_assoc. reflexivity.
Qed.

Lemma extract_markers_snd (document : list Page) (start : nat) :
  map snd (map (fun '(page_num, pg) => (get_text pg, page_num)) (enumerate document start))
  = seq start (length document).
Proof.
  rewrite <- enumerate_fst, map_map. apply map_ext. now intros [n pg].
Qed.

Lemma extract_markers_fst (document : list Page) (start : nat) :
  map fst (map (fun '(page_num, pg) => (get_text pg, page_num)) (enumerate document start))
  = map get_text document.
Proof.
  rewrite <- (enumerate_snd document start) at 2.
  rewrite !map_map. apply map_ext. now intros [n pg].
Qed.

Lemma chunk_inner_loop (page_num : nat) (chunks : list string) (acc : list (string * nat)) :
  fold_left (fun acc' chunk => (acc' ++ [(chunk, page_num)])%list) chunks acc
  = (acc ++ map (fun chunk => (chunk, page_num)) chunks)%list.
Proof.
  revert acc; induction chunks as [|c chunks IH]; intros acc; simpl.
  - now rewrite app_nil_r.
  - rewrite IH, <- app_assoc. reflexivity.
Qed.

Lemma chunk_outer_loop (u : string) (all : list (string * nat)) (acc : list (string * nat)) :
  map (fun chunk => {| text := fst chunk; page := snd chunk; url := u |})
      (fold_left
         (fun acc '(txt, page_num) =>
            fold_left (fun acc' chunk => (acc' ++ [(chunk, page_num)])%list)
                      (create_documents [txt]) acc)
         all acc)
  = (map (fun chunk => {| text := fst chunk; page := snd chunk; url := u |}) acc
     ++ flat_map (page_chunks u) all)%list.
Proof.
  revert acc; induction all as [|[txt page_num] all IH]; intros acc; simpl.
  - now rewrite app_nil_r.
  - rewrite IH, chunk_inner_loop, map_app, <- app_assoc.
    unfold page_chunks at 2. simpl. now rewrite map_map.
Qed.

Lemma chunk_text_flat_map (all : list (string * nat)) (u : string) :
  chunk_text all u = flat_map (page_chunks u) all.
Proof. unfold chunk_text. now rewrite chunk_outer_loop. Qed.

Lemma chunk_text_app (a1 a2 : list (string * nat)) (u : string) :
  chunk_text (a1 ++ a2) u = (chunk_text a1 u ++ chunk_text a2 u)%list.
Proof. rewrite !chunk_text_flat_map. apply flat_map_app. Qed.

(** C7: for a document that downloads and opens with n pages, extraction
    returns exactly n (text, page number) pairs, the texts of the pages in
    order, numbered 1, 2, ..., n. *)
Theorem extract_page_numbers_contiguous
    (pdf_url : string) (pdf_bytes : bytes) (document : list Page) :
  download_pdf pdf_url = Ok pdf_bytes ->
  fitz_open pdf_bytes = Ok document ->
  exists out,
    extract_text_with_page_numbers_from_url pdf_url = Ok out /\
    length out = length document /\
    map snd out = seq 1 (length document) /\
    map fst out = map get_text document.
Proof.
  intros Hdl Hopen. unfold extract_text_with_page_numbers_from_url.
  rewrite Hdl; simpl. rewrite Hopen; simpl.
  eexists; split; [reflexivity|].
  rewrite extract_loop; simpl.
  split; [|split].
  - now rewrite length_map, enumerate_length.
  - apply extract_markers_snd.
  - apply extract_markers_fst.
Qed.

(** C8: the records of [chunk_text] are the records of each pair taken on
    its own, page after page; every record carries the URL passed in, and
    its text is one of the chunks the splitter made of the text of one
    pair, whose page number is the record's. *)
Theorem chunk_text_single_page (all : list (string * nat)) (u : string) :
  chunk_text all u = concat (map (fun tp => chunk_text [tp] u) all) /\
  Forall (fun r => url r = u /\
                   exists txt, In (txt, page r) all /\
                               In (text r) (create_documents [txt]))
         (chunk_text all u).
Proof.
  split.
  - rewrite chunk_text_flat_map, flat_map_concat_map. f_equal.
    apply map_ext. intros tp. rewrite chunk_text_flat_map. simpl.
    now rewrite app_nil_r.
  - rewrite chunk_text_flat_map. apply List.Forall_forall. intros r Hr.
    apply in_flat_map in Hr as [[txt p] [Hin Hr]].
    unfold page_chunks in Hr. apply in_map_iff in Hr as [c [<- Hc]]. simpl in *.
    split; [reflexivity|]. exists txt. split; assumption.
Qed.

End Extraction.

(** C7 on the two-page document of the concrete world. *)
Lemma extract_page_numbers_contiguous_witness :
  exists out,
    extract_text_with_page_numbers_from_url (Ext := Demo.world) Demo.url_two = Ok out /\
    length out = 2 /\
    map snd out = [1; 2] /\
    map fst out = ["gamma"; "delta epsilon"].
Proof.
  exact (extract_page_numbers_contiguous (Ext := Demo.world)
           Demo.url_two [Byte.x32] ["gamma"; "delta epsilon"] eq_refl eq_refl).
Defined.

Example chunk_text_demo :
  chunk_text (Ext := Demo.world) [("gamma", 1); ("delta epsilon", 2)] Demo.url_two
  = [ mkChunk "gamma" 1 Demo.url_two;
      mkChunk "delta" 2 Demo.url_two;
      mkChunk "epsilon" 2 Demo.url_two ].
Proof. reflexivity. Qed.

(** ** The random collection name *)

Lemma draw_range (m : Z) :
  (0 <= m < two53)%Z -> (0 <= draw m)%Q /\ (draw m < 1)%Q.
Proof. unfold draw, two53, Qle, Qlt. cbn [Qnum Qden]. lia. Qed.

Lemma is_draw_range (r : Q) : is_draw r -> (0 <= r)%Q /\ (r < 1)%Q.
Proof.
  intros (m & Hm & Hr). destruct (draw_range m Hm) as [H0 H1].
  split; rewrite Hr; assumption.
Qed.

Lemma draw_bits_range (r : Q) :
  (0 <= r)%Q -> (r < 1)%Q -> (0 <= draw_bits r < two53)%Z.
Proof.
  intros H0 H1. unfold draw_bits.
  set (x := (r * inject_Z two53)%Q).
  assert (Hpos : (0 < inject_Z two53)%Q) by reflexivity.
  assert (Hx0 : (0 <= x)%Q).
  { apply Qmult_le_0_compat; [exact H0 | now apply Qlt_le_weak]. }
  assert (Hx1 : (x < inject_Z two53)%Q).
  { unfold x. rewrite <- (Qmult_1_l (inject_Z two53)) at 2.
    apply Qmult_lt_compat_r; assumption. }
  split.
  - change 0%Z with (Qfloor 0). now apply Qfloor_resp_le.
  - rewrite Zlt_Qlt. eapply Qle_lt_trans; [apply Qfloor_le | exact Hx1].
Qed.

Lemma draw_bits_draw (m : Z) : draw_bits (draw m) = m.
Proof.
  unfold draw_bits, draw, Qfloor, Qmult, inject_Z, two53. cbn [Qnum Qden].
  change (Z.pos (9007199254740992 * 1)) with 9007199254740992%Z.
  apply Z.div_mul. discriminate.
Qed.

(** The binary64 product of a draw and a population size stays below the
    size: rounding moves the exact product by at most half a unit in the
    last place, which is less than the distance to the size. *)
Lemma round_to_53_bits_below (n m : Z) :
  (0 < n)%Z -> (0 <= m < two53)%Z ->
  (round_to_53_bits (n * m) < n * two53)%Z.
Proof.
  intros Hn Hm. set (p := (n * m)%Z).
  assert (Hp : (0 <= p <= n * two53 - n)%Z) by (unfold p; nia).
  unfold round_to_53_bits. destruct (p <? two53)%Z eqn:Esmall.
  - apply Z.ltb_lt in Esmall. nia.
  - apply Z.ltb_ge in Esmall.
    assert (Hp0 : (0 < p)%Z) by (unfold two53 in Esmall; lia).
    destruct (Z.log2_spec p Hp0) as [Hlo _].
    assert (Hl : (53 <= Z.log2 p)%Z).
    { change 53%Z with (Z.log2 two53). now apply Z.log2_le_mono. }
    set (s := (Z.log2 p - 52)%Z) in *.
    set (half := (2 ^ (s - 1))%Z).
    assert (Hhalf : (0 < half)%Z) by (apply Z.pow_pos_nonneg; lia).
    assert (HP : (2 ^ s = 2 * half)%Z).
    { unfold half. rewrite <- Z.pow_succ_r by lia. f_equal. lia. }
    assert (Hl2 : (2 ^ Z.log2 p = half * two53)%Z).
    { unfold half. change two53 with (2 ^ 53)%Z.
      rewrite <- Z.pow_add_r by lia. f_equal. lia. }
    assert (Hhn : (half < n)%Z) by nia.
    pose proof (Z.div_mod p (2 ^ s) ltac:(lia)) as Hdm.
    pose proof (Z.mod_pos_bound p (2 ^ s) ltac:(lia)) as Hrem.
    set (q := (p / 2 ^ s)%Z) in *. set (rem := (p mod 2 ^ s)%Z) in *.
    destruct (rem <? half)%Z eqn:E1.
    + nia.
    + apply Z.ltb_ge in E1.
      assert (Hup : ((q + 1) * 2 ^ s < n * two53)%Z) by nia.
      destruct (half <? rem)%Z; [exact Hup|].
      destruct (Z.even q); [nia | exact Hup].
Qed.

Lemma choice_index_lt (n : nat) (r : Q) :
  (0 <= r)%Q -> (r < 1)%Q -> 0 < n -> choice_index n r < n.
Proof.
  intros H0 H1 Hn. unfold choice_index.
  pose proof (draw_bits_range r H0 H1) as Hm.
  pose proof (round_to_53_bits_below (Z.of_nat n) (draw_bits r) ltac:(lia) Hm) as Hlt.
  assert (Hq : (round_to_53_bits (Z.of_nat n * draw_bits r) / two53 < Z.of_nat n)%Z).
  { apply Z.div_lt_upper_bound; [reflexivity | lia]. }
  lia.
Qed.

Lemma random_choices_world (population : list ascii) (k : nat) (w : World) :
  self (snd (random_choices population k w)) = self w /\
  random_tape (snd (random_choices population k w)) = random_tape w.
Proof.
  revert w; induction k as [|k IH]; intros w; simpl; [split; reflexivity|].
  unfold bind, random_random; simpl.
  destruct (population !! _) as [c|]; simpl; [|split; reflexivity].
  match goal with |- context [random_choices population k ?w1] =>
    specialize (IH w1); destruct (random_choices population k w1) as [[cs|e] w2] end;
    simpl in *; exact IH.
Qed.

Lemma random_choices_length (population : list ascii) (k : nat) (w : World)
    (chars : list ascii) :
  fst (random_choices population k w) = Ok chars ->
  length chars = k /\ Forall (fun c => In c population) chars.
Proof.
  revert w chars; induction k as [|k IH]; intros w chars; simpl.
  - intros [= <-]. split; [reflexivity | constructor].
  - unfold bind, random_random; simpl.
    destruct (population !! _) as [c|] eqn:Hc; simpl; [|discriminate].
    match goal with |- context [random_choices population k ?w1] =>
      specialize (IH w1); destruct (random_choices population k w1) as [[cs|e] w2] end;
      simpl in *; [|discriminate].
    intros [= <-]. destruct (IH cs eq_refl) as [Hlen Hall].
    split; [simpl; now rewrite Hlen|].
    constructor; [|exact Hall].
    apply list_elem_of_In. eapply list_elem_of_lookup_2. exact Hc.
Qed.

(** Draws that pick the same positions produce the same letters. *)
Lemma random_choices_same_draws (population : list ascii) (k : nat) (w1 w2 : World) :
  (forall i, i < k ->
     choice_index (length population) (random_tape w1 (random_pos w1 + i)) =
     choice_index (length population) (random_tape w2 (random_pos w2 + i))) ->
  fst (random_choices population k w1) = fst (random_choices population k w2).
Proof.
  revert w1 w2; induction k as [|k IH]; intros w1 w2 Hsame; simpl; [reflexivity|].
  unfold bind, random_random; simpl.
  pose proof (Hsame 0 ltac:(lia)) as H0. rewrite !Nat.add_0_r in H0. rewrite H0.
  destruct (population !! _) as [c|]; simpl; [|reflexivity].
  match goal with
  | |- context [random_choices population k ?a] =>
    match goal with
    | |- fst (match _ with _ => _ end) = fst (match random_choices population k ?b with _ => _ end) =>
      specialize (IH a b)
    end
  end.
  simpl in IH.
  assert (Hrest : forall i, i < k ->
            choice_index (length population) (random_tape w1 (S (random_pos w1) + i)) =
            choice_index (length population) (random_tape w2 (S (random_pos w2) + i))).
  { intros i Hi. specialize (Hsame (S i) ltac:(lia)).
    now rewrite !Nat.add_succ_r in Hsame. }
  specialize (IH Hrest).
  repeat match goal with
  | |- context [random_choices population k ?a] =>
      destruct (random_choices population k a) as [[?|?] ?]
  end; simpl in *; congruence.
Qed.

(** Draws that stay in [0, 1) never index out of range. *)
Lemma random_choices_in_range (population : list ascii) (k : nat) (w : World) :
  0 < length population ->
  (forall i, i < k ->
     (0 <= random_tape w (random_pos w + i))%Q /\ (random_tape w (random_pos w + i) < 1)%Q) ->
  is_ok (fst (random_choices population k w)) = true.
Proof.
  intros Hpop. revert w; induction k as [|k IH]; intros w Hdraws; simpl; [reflexivity|].
  unfold bind, random_random; simpl.
  destruct (Hdraws 0 ltac:(lia)) as [H0 H1]. rewrite Nat.add_0_r in H0, H1.
  pose proof (choice_index_lt (length population) _ H0 H1 Hpop) as Hlt.
  apply lookup_lt_is_Some_2 in Hlt as [c Hc]. rewrite Hc; simpl.
  match goal with |- context [random_choices population k ?w1] =>
    specialize (IH w1) end.
  simpl in IH.
  assert (Hrest : forall i, i < k ->
            (0 <= random_tape w (S (random_pos w) + i))%Q /\
            (random_tape w (S (random_pos w) + i) < 1)%Q).
  { intros i Hi. specialize (Hdraws (S i) ltac:(lia)).
    now rewrite Nat.add_succ_r in Hdraws. }
  specialize (IH Hrest).
  match goal with |- context [random_choices population k ?w1] =>
    destruct (random_choices population k w1) as [[?|?] ?] end; simpl in *; congruence.
Qed.

Lemma random_choices_run (population : list ascii) (d : ascii) (k : nat) (w : World) :
  0 < length population ->
  (forall i, i < k ->
     (0 <= random_tape w (random_pos w + i))%Q /\ (random_tape w (random_pos w + i) < 1)%Q) ->
  random_choices population k w =
    (Ok (map (fun i => nth (choice_index (length population)
                                         (random_tape w (random_pos w + i)))
                           population d)
             (seq 0 k)),
     mkWorld (self w) (random_tape w) (random_pos w + k)).
Proof.
  intros Hpop. revert w; induction k as [|k IH]; intros w Hdraws.
  - simpl. unfold ret. rewrite Nat.add_0_r. now destruct w.
  - cbn [random_choices]. unfold bind at 1. unfold random_random at 1.
    destruct (Hdraws 0 ltac:(lia)) as [H0 H1]. rewrite Nat.add_0_r in H0, H1.
    pose proof (choice_index_lt (length population) _ H0 H1 Hpop) as Hlt.
    apply lookup_lt_is_Some_2 in Hlt as [c Hc]. rewrite Hc.
    unfold bind. rewrite IH.
    + cbn [self random_tape random_pos]. unfold ret. f_equal.
      * f_equal. cbn [seq map]. rewrite Nat.add_0_r. f_equal.
        { symmetry. now apply nth_lookup_Some. }
        rewrite <- seq_shift, map_map. apply map_ext. intros i.
        now rewrite Nat.add_succ_r.
      * f_equal. lia.
    + cbn [self random_tape random_pos]. intros i Hi.
      specialize (Hdraws (S i) ltac:(lia)). now rewrite Nat.add_succ_r in Hdraws.
Qed.

(** ** Ingestion *)

Section Ingestion.
Context `{Ext : External}.

Lemma process_pdf_loop_world (pdf_urls : list string)
    (acc : option (list ChunkRecord)) (w : World) :
  snd (process_pdf_loop pdf_urls acc w) = w.
Proof.
  revert acc; induction pdf_urls as [|u rest IH]; intros acc; simpl; [reflexivity|].
  unfold bind, lift.
  destruct (extract_text_with_page_numbers_from_url u); [apply IH | reflexivity].
Qed.

Lemma process_pdf_loop_nil (acc : option (list ChunkRecord)) (w : World) :
  process_pdf_loop [] acc w = (Ok acc, w).
Proof. reflexivity. Qed.

(** When every location extracts, the loop ends with the chunks of the
    last location alone. *)
Lemma process_pdf_loop_last (pre : list string) (u : string)
    (all : list (string * nat)) (acc : option (list ChunkRecord)) (w : World) :
  Forall (fun v => is_ok (extract_text_with_page_numbers_from_url v) = true) pre ->
  extract_text_with_page_numbers_from_url u = Ok all ->
  process_pdf_loop (pre ++ [u]) acc w = (Ok (Some (chunk_text all u)), w).
Proof.
  intros Hpre Hu. revert acc; induction Hpre as [|v pre Hv Hpre IH]; intros acc; simpl.
  - unfold bind, lift. now rewrite Hu.
  - unfold bind, lift.
    destruct (extract_text_with_page_numbers_from_url v); [apply IH | discriminate].
Qed.

(** A location that does not extract makes the loop raise. *)
Lemma process_pdf_loop_raise (pre post : list string) (u : string) (e : exn)
    (acc : option (list ChunkRecord)) (w : World) :
  extract_text_with_page_numbers_from_url u = Raise e ->
  exists e', process_pdf_loop (pre ++ u :: post) acc w = (Raise e', w).
Proof.
  intros Hu. revert acc; induction pre as [|v pre IH]; intros acc; simpl.
  - unfold bind, lift. rewrite Hu. now exists e.
  - unfold bind, lift.
    destruct (extract_text_with_page_numbers_from_url v) as [a|e0];
      [apply IH | now exists e0].
Qed.

(** The loop stops at the first location that does not extract. *)
Lemma process_pdf_loop_first_raise (pre post : list string) (u : string) (e : exn)
    (acc : option (list ChunkRecord)) (w : World) :
  Forall (fun v => is_ok (extract_text_with_page_numbers_from_url v) = true) pre ->
  extract_text_with_page_numbers_from_url u = Raise e ->
  process_pdf_loop (pre ++ u :: post) acc w = (Raise e, w).
Proof.
  intros Hpre Hu. revert acc; induction Hpre as [|v pre Hv Hpre IH]; intros acc; simpl.
  - unfold bind, lift. now rewrite Hu.
  - unfold bind, lift.
    destruct (extract_text_with_page_numbers_from_url v); [apply IH | discriminate].
Qed.

Lemma process_pdf_no_collection (pdf_urls : list string) (w w1 : World) (e : exn) :
  random_choices ascii_lowercase 7 w = (Raise e, w1) ->
  process_pdf pdf_urls w = (Raise e, w1).
Proof.
  intros Hname. unfold process_pdf, set_collection_name, bind. now rewrite Hname.
Qed.

Lemma assign_folds_run (k : nat) (w : World) :
  assign_folds k w = (Ok tt, mkWorld (self w) (random_tape w) (random_pos w + k)).
Proof.
  revert w; induction k as [|k IH]; intros w.
  - cbn. unfold ret. rewrite Nat.add_0_r. now destruct w.
  - cbn [assign_folds]. unfold bind, random_random. rewrite IH.
    cbn [self random_tape random_pos]. do 2 f_equal. lia.
Qed.

Lemma insert_documents_run (c : string) (chunk : ChunkRecord) (chunks : list ChunkRecord)
    (w : World) :
  doc_collection (self w) = Some c ->
  insert_documents (chunk :: chunks) w =
    (Ok tt,
     mkWorld
       {| mongodb_uri := mongodb_uri (self w);
          artifact_store_path := artifact_store_path (self w);
          db := mkDatalayer
                  (<[c := (default [] (collections (db (self w)) !! c)
                             ++ chunk :: chunks)%list]> (collections (db (self w))))
                  (components (db (self w)));
          doc_collection := Some c;
          model := model (self w) |}
       (random_tape w) (random_pos w + S (length chunks))).
Proof.
  intros Hc. unfold insert_documents, getattr, get_self, bind at 1 2, ret. cbn [self].
  rewrite Hc. unfold db_insert_many, bind at 1. rewrite assign_folds_run.
  unfold set_db, get_self, put_self, bind.
  cbn [self random_tape random_pos length]. now rewrite Hc.
Qed.

Lemma insert_documents_nil (c : string) (w : World) :
  doc_collection (self w) = Some c ->
  insert_documents [] w = (Raise (TypeError "documents must be a non-empty list"), w).
Proof.
  intros Hc. unfold insert_documents, getattr, get_self, bind at 1 2, ret. cbn [self].
  now rewrite Hc.
Qed.

(** The run of [process_pdf] once the collection name has been drawn. *)
Lemma process_pdf_run (pdf_urls : list string) (w w1 : World) (chars : list ascii) :
  random_choices ascii_lowercase 7 w = (Ok chars, w1) ->
  let c := join_chars chars in
  let w2 := mkWorld (prepared (self w) c) (random_tape w) (random_pos w1) in
  process_pdf pdf_urls w =
    match fst (process_pdf_loop pdf_urls None w2) with
    | Ok (Some []) => (Raise (TypeError "documents must be a non-empty list"), w2)
    | Ok (Some (chunk :: chunks)) =>
        (Ok tt, mkWorld (ingested (self w) c (chunk :: chunks)) (random_tape w)
                        (random_pos w1 + S (length chunks)))
    | Ok None => (Raise (UnboundLocalError "chunks_with_pages"), w2)
    | Raise e => (Raise e, w2)
    end.
Proof.
  intros Hname c w2.
  destruct (random_choices_world ascii_lowercase 7 w) as [Hself Htape].
  rewrite Hname in Hself, Htape; simpl in Hself, Htape.
  unfold process_pdf, set_collection_name, bind. rewrite Hname.
  destruct w1 as [h1 t1 p1]; simpl in Hself, Htape; subst h1 t1.
  subst c w2. unfold prepared.
  cbn -[process_pdf_loop ascii_lowercase join_chars initialize_model
        vector_index_identifier insert_documents].
  match goal with |- context [process_pdf_loop pdf_urls None ?x] =>
    pose proof (process_pdf_loop_world pdf_urls None x) as Hw;
    destruct (process_pdf_loop pdf_urls None x) as [[[[|chunk chunks]|]|e] w3]
  end; simpl in Hw; subst w3; cbn [fst]; try reflexivity.
  now rewrite (insert_documents_run (join_chars chars)).
Qed.

Lemma download_raise_extract (u : string) (e : exn) :
  download_pdf u = Raise e ->
  extract_text_with_page_numbers_from_url u = Raise e.
Proof. intros H. unfold extract_text_with_page_numbers_from_url. now rewrite H. Qed.

(** With no location the local [chunks_with_pages] is never bound. *)
Lemma process_pdf_nil (w w1 : World) (chars : list ascii) :
  random_choices ascii_lowercase 7 w = (Ok chars, w1) ->
  fst (process_pdf [] w) = Raise (UnboundLocalError "chunks_with_pages").
Proof. intros Hname. now rewrite (process_pdf_run [] w w1 chars Hname). Qed.

(** When every location extracts and the last one yields a chunk, what
    [process_pdf] inserts is the chunks of the last location, after
    whatever the collection already held. *)
Lemma process_pdf_inserts_last_only (pre : list string) (u : string)
    (all : list (string * nat)) (w w1 : World) (chars : list ascii) :
  random_choices ascii_lowercase 7 w = (Ok chars, w1) ->
  Forall (fun v => is_ok (extract_text_with_page_numbers_from_url v) = true) pre ->
  extract_text_with_page_numbers_from_url u = Ok all ->
  chunk_text all u <> [] ->
  process_pdf (pre ++ [u]) w =
    (Ok tt, mkWorld (ingested (self w) (join_chars chars) (chunk_text all u))
                    (random_tape w) (random_pos w1 + length (chunk_text all u))).
Proof.
  intros Hname Hpre Hu Hne.
  rewrite (process_pdf_run _ w w1 chars Hname).
  rewrite (process_pdf_loop_last pre u all None _ Hpre Hu). cbn [fst].
  destruct (chunk_text all u) as [|chunk chunks]; [congruence | reflexivity].
Qed.

Lemma set_collection_name_ok (w : World) :
  fst (set_collection_name w) = Ok tt ->
  exists chars w1, random_choices ascii_lowercase 7 w = (Ok chars, w1).
Proof.
  unfold set_collection_name, bind.
  destruct (random_choices ascii_lowercase 7 w) as [[chars|e] w1]; simpl.
  - intros _. now exists chars, w1.
  - discriminate.
Qed.

Lemma set_collection_name_run (w w1 : World) (chars : list ascii) :
  random_choices ascii_lowercase 7 w = (Ok chars, w1) ->
  fst (set_collection_name w) = Ok tt /\
  doc_collection (self (snd (set_collection_name w))) = Some (join_chars chars).
Proof.
  intros Hname. unfold set_collection_name, bind. rewrite Hname. split; reflexivity.
Qed.

(** After [process_pdf] has created its collection, the handler carries the
    collection, the model and the index, whether or not the locations
    could be ingested. *)
Lemma process_pdf_handler (pdf_urls : list string) (w w1 : World) (chars : list ascii) :
  random_choices ascii_lowercase 7 w = (Ok chars, w1) ->
  let h := self (snd (process_pdf pdf_urls w)) in
  doc_collection h = Some (join_chars chars) /\
  model h = Some initialize_model /\
  components (db h) = components (db (prepared (self w) (join_chars chars))).
Proof.
  intros Hname. rewrite (process_pdf_run pdf_urls w w1 chars Hname).
  destruct (fst (process_pdf_loop pdf_urls None _)) as [[[|chunk chunks]|]|e];
    repeat split; reflexivity.
Qed.

(** C3, as the code has it: when the ingestion run creates its collection,
    the index it declares is the last component added to the data layer, a
    [VectorIndex] that selects the run's collection and whose identifier is
    "pymongo-docs-" followed by the identifier of the embedding model, that
    is "pymongo-docs-all-MiniLM-L6-v2" whatever the collection. *)
Theorem vector_index_identifier_ignores_collection (pdf_urls : list string) (w : World) :
  fst (set_collection_name w) = Ok tt ->
  exists c,
    doc_collection (self (snd (process_pdf pdf_urls w))) = Some c /\
    components (db (self (snd (process_pdf pdf_urls w)))) =
      (components (db (self w))
         ++ [VectorIndex "pymongo-docs-all-MiniLM-L6-v2" c "text" initialize_model 1000])%list.
Proof.
  intros Hok. destruct (set_collection_name_ok w Hok) as (chars & w1 & Hname).
  destruct (process_pdf_handler pdf_urls w w1 chars Hname) as (Hc & _ & Hcomp).
  exists (join_chars chars). split; [exact Hc | exact Hcomp].
Qed.

(** C5, as the code has it: for a location whose fetch yields a status from
    400 to 599, [download_pdf] raises the [HTTPError] of that status, and
    every ingestion call whose list holds the location raises and inserts
    nothing; the error the call raises is that [HTTPError] when the
    collection of the run is created and the locations before it extract.
    For a location whose fetch yields any other status, 2xx or not,
    [download_pdf] returns the body of the response. *)
Theorem download_pdf_by_status (pdf_url : string) (response : Response) :
  requests_get pdf_url = Ok response ->
  ((400 <= status_code response < 600)%Z ->
     download_pdf pdf_url = Raise (HTTPError (status_code response)) /\
     forall (pre post : list string) (w : World),
       (exists e, fst (process_pdf (pre ++ pdf_url :: post) w) = Raise e) /\
       collections (db (self (snd (process_pdf (pre ++ pdf_url :: post) w))))
         = collections (db (self w)) /\
       (fst (set_collection_name w) = Ok tt ->
        Forall (fun v => is_ok (extract_text_with_page_numbers_from_url v) = true) pre ->
        fst (process_pdf (pre ++ pdf_url :: post) w)
          = Raise (HTTPError (status_code response)))) /\
  ((status_code response < 400 \/ 600 <= status_code response)%Z ->
     download_pdf pdf_url = Ok (content response)).
Proof.
  intros Hget. split.
  - intros Hst.
    assert (Hdl : download_pdf pdf_url = Raise (HTTPError (status_code response))).
    { unfold download_pdf. rewrite Hget; simpl. unfold raise_for_status.
      destruct (400 <=? status_code response)%Z eqn:E1; [|lia].
      destruct (status_code response <? 600)%Z eqn:E2; [reflexivity|lia]. }
    split; [exact Hdl|].
    intros pre post w.
    destruct (random_choices ascii_lowercase 7 w) as [[chars|e] w1] eqn:Hname.
    + rewrite (process_pdf_run _ w w1 chars Hname).
      split; [|split].
      * destruct (process_pdf_loop_raise pre post pdf_url _ None
                    (mkWorld (prepared (self w) (join_chars chars))
                             (random_tape w) (random_pos w1))
                    (download_raise_extract _ _ Hdl)) as [e' He'].
        rewrite He'. now exists e'.
      * destruct (process_pdf_loop_raise pre post pdf_url _ None
                    (mkWorld (prepared (self w) (join_chars chars))
                             (random_tape w) (random_pos w1))
                    (download_raise_extract _ _ Hdl)) as [e' He'].
        rewrite He'. reflexivity.
      * intros _ Hpre.
        now rewrite (process_pdf_loop_first_raise pre post pdf_url _ None _ Hpre
                       (download_raise_extract _ _ Hdl)).
    + rewrite (process_pdf_no_collection _ w w1 e Hname). simpl.
      split; [now exists e|]. split.
      * destruct (random_choices_world ascii_lowercase 7 w) as [Hself _].
        rewrite Hname in Hself; simpl in Hself. now rewrite Hself.
      * intros Hok. unfold set_collection_name, bind in Hok.
        rewrite Hname in Hok. discriminate.
  - intros Hst. unfold download_pdf. rewrite Hget; simpl. unfold raise_for_status.
    destruct (400 <=? status_code response)%Z eqn:E1;
      destruct (status_code response <? 600)%Z eqn:E2; simpl; try reflexivity; lia.
Qed.

End Ingestion.

(** ** The collection name *)

Lemma join_chars_length (chars : list ascii) :
  String.length (join_chars chars) = length chars.
Proof.
  induction chars as [|c chars IH]; simpl; [reflexivity|]. now rewrite IH.
Qed.

Lemma ascii_lowercase_NoDup : List.NoDup ascii_lowercase.
Proof. apply NoDup_ListNoDup, (bool_decide_unpack _). vm_compute. exact I. Qed.

Lemma join_chars_inj (l1 l2 : list ascii) : join_chars l1 = join_chars l2 -> l1 = l2.
Proof.
  unfold join_chars. intros H.
  rewrite <- (list_ascii_of_string_of_list_ascii l1),
          <- (list_ascii_of_string_of_list_ascii l2).
  now rewrite H.
Qed.

(** The letters picked from [ascii_lowercase] are equal exactly when the
    positions picked are. *)
Lemma picked_letters_eq (k : nat) (f g : nat -> nat) :
  (forall i, i < k -> f i < 26 /\ g i < 26) ->
  (map (fun i => nth (f i) ascii_lowercase "a"%char) (seq 0 k)
   = map (fun i => nth (g i) ascii_lowercase "a"%char) (seq 0 k)
   <-> forall i, i < k -> f i = g i).
Proof.
  intros Hlt. rewrite map_ext_in_iff. split.
  - intros H i Hi. destruct (Hlt i Hi) as [Hf Hg].
    apply (proj1 (NoDup_nth ascii_lowercase "a"%char) ascii_lowercase_NoDup);
      [exact Hf | exact Hg |].
    apply H. apply in_seq. lia.
  - intros H i Hi. apply in_seq in Hi. rewrite (H i); [reflexivity | lia].
Qed.

(** C4, as the code has it: the identifier that [set_collection_name]
    assigns is seven letters of [string.ascii_lowercase], the letters at the
    positions [floor(r * 26)] (a binary64 product) of the next seven
    values [r] of the random generator, and it is compared with nothing:
    two runs are given the same identifier exactly when their seven draws
    pick the same positions. *)
Theorem set_collection_name_by_draws (w1 w2 : World) :
  (forall i, i < 7 -> is_draw (random_tape w1 (random_pos w1 + i))) ->
  (forall i, i < 7 -> is_draw (random_tape w2 (random_pos w2 + i))) ->
  exists name1 name2,
    fst (set_collection_name w1) = Ok tt /\
    fst (set_collection_name w2) = Ok tt /\
    doc_collection (self (snd (set_collection_name w1))) = Some name1 /\
    doc_collection (self (snd (set_collection_name w2))) = Some name2 /\
    name1 = join_chars
              (map (fun i => nth (choice_index 26 (random_tape w1 (random_pos w1 + i)))
                                 ascii_lowercase "a"%char)
                   (seq 0 7)) /\
    name2 = join_chars
              (map (fun i => nth (choice_index 26 (random_tape w2 (random_pos w2 + i)))
                                 ascii_lowercase "a"%char)
                   (seq 0 7)) /\
    String.length name1 = 7 /\
    String.length name2 = 7 /\
    Forall (fun ch => In ch ascii_lowercase) (list_ascii_of_string name1) /\
    Forall (fun ch => In ch ascii_lowercase) (list_ascii_of_string name2) /\
    (name1 = name2 <->
     forall i, i < 7 ->
       choice_index 26 (random_tape w1 (random_pos w1 + i)) =
       choice_index 26 (random_tape w2 (random_pos w2 + i))).
Proof.
  intros Hd1 Hd2.
  assert (Hr1 := fun i Hi => is_draw_range _ (Hd1 i Hi)).
  assert (Hr2 := fun i Hi => is_draw_range _ (Hd2 i Hi)).
  pose proof (random_choices_run ascii_lowercase "a"%char 7 w1 ltac:(simpl; lia) Hr1) as H1.
  pose proof (random_choices_run ascii_lowercase "a"%char 7 w2 ltac:(simpl; lia) Hr2) as H2.
  change (length ascii_lowercase) with 26 in H1, H2.
  destruct (set_collection_name_run w1 _ _ H1) as [Ha Hb].
  destruct (set_collection_name_run w2 _ _ H2) as [Hc Hd].
  destruct (random_choices_length ascii_lowercase 7 w1 _ (f_equal fst H1)) as [Hl1 Hall1].
  destruct (random_choices_length ascii_lowercase 7 w2 _ (f_equal fst H2)) as [Hl2 Hall2].
  eexists _, _.
  split; [exact Ha|]. split; [exact Hc|]. split; [exact Hb|]. split; [exact Hd|].
  split; [reflexivity|]. split; [reflexivity|].
  split; [now rewrite join_chars_length|]. split; [now rewrite join_chars_length|].
  split; [unfold join_chars; now rewrite list_ascii_of_string_of_list_ascii|].
  split; [unfold join_chars; now rewrite list_ascii_of_string_of_list_ascii|].
  rewrite <- (picked_letters_eq 7).
  - split; [apply join_chars_inj | intros ->; reflexivity].
  - intros i Hi. destruct (Hr1 i Hi) as [A1 B1]. destruct (Hr2 i Hi) as [A2 B2].
    split; apply choice_index_lt; try assumption; lia.
Qed.

(** ** Queries *)

Section Queries.
Context `{Ext : External}.

Lemma StronglySorted_weaken {A} (R R' : A -> A -> Prop) (l : list A) :
  (forall a b, R a b -> R' a b) -> StronglySorted R l -> StronglySorted R' l.
Proof.
  intros HR. induction 1 as [|x l Hs IH Hx]; constructor; [exact IH|].
  eapply Forall_impl; [exact Hx|]. intros y. apply HR.
Qed.

Lemma Qopp_le_score (a b : Q) : (- a <= - b)%Q -> (b <= a)%Q.
Proof. unfold Qle, Qopp. simpl. lia. Qed.

Lemma query_documents_run (search_term : string) (num_results : option Z)
    (w : World) (c : string) (m : Model) :
  doc_collection (self w) = Some c ->
  model (self w) = Some m ->
  query_documents search_term num_results w =
    (Ok (sorted (fun r => - score r)%Q
           (like_find (db (self w)) c search_term (vector_index_identifier m)
                      (default 1%Z num_results))), w).
Proof.
  intros Hc Hm. unfold query_documents, getattr, get_self, bind, ret; simpl.
  rewrite Hc; simpl. rewrite Hm; simpl. reflexivity.
Qed.

Lemma query_documents_world (search_term : string) (num_results : option Z) (w : World) :
  snd (query_documents search_term num_results w) = w.
Proof.
  unfold query_documents, getattr, get_self, bind, ret, raise; simpl.
  destruct (doc_collection (self w)); simpl; [|reflexivity].
  destruct (model (self w)); reflexivity.
Qed.

Lemma query_documents_ok (search_term : string) (num_results : option Z)
    (w : World) (rs : list SearchResult) :
  fst (query_documents search_term num_results w) = Ok rs ->
  exists c m,
    doc_collection (self w) = Some c /\ model (self w) = Some m /\
    rs = sorted (fun r => - score r)%Q
           (like_find (db (self w)) c search_term (vector_index_identifier m)
                      (default 1%Z num_results)).
Proof.
  unfold query_documents, getattr, get_self, bind, ret, raise; simpl.
  destruct (doc_collection (self w)) as [c|]; simpl; [|discriminate].
  destruct (model (self w)) as [m|]; simpl; [|discriminate].
  intros [= <-]. now exists c, m.
Qed.

(** C6, as the code has it: on a handler that has its collection and model,
    [query_documents] returns its results in order of non-increasing score
    for every [num_results]; over a store whose [like] query returns at
    most the [n] results it is asked for when [n] is not negative, it
    returns at most [num_results] results when [num_results] is not
    negative (at most 1 when the argument is omitted). *)
Theorem query_documents_at_most_k_sorted
    (search_term : string) (num_results : option Z)
    (w : World) (c : string) (m : Model) :
  (forall d col q i n,
     (0 <= n)%Z -> (Z.of_nat (length (like_find d col q i n)) <= n)%Z) ->
  doc_collection (self w) = Some c ->
  model (self w) = Some m ->
  exists rs,
    query_documents search_term num_results w = (Ok rs, w) /\
    ((0 <= default 1%Z num_results)%Z ->
     (Z.of_nat (length rs) <= default 1%Z num_results)%Z) /\
    StronglySorted (fun a b => (score b <= score a)%Q) rs.
Proof.
  intros Hstore Hc Hm. eexists. split; [apply (query_documents_run _ _ _ c m Hc Hm)|].
  split.
  - intros Hk. rewrite sorted_length. now apply Hstore.
  - eapply StronglySorted_weaken; [|apply sorted_sorted].
    intros a b. unfold key_le. apply Qopp_le_score.
Qed.

(** C2, as the code has it: the results [get_relevant_docs] returns are
    those of the [like] query with [n = 1], the default of
    [query_documents], run on the collection and model of the ingestion
    just made, in order of non-increasing score. *)
Theorem get_relevant_docs_asks_for_one
    (pdf_list : list string) (search_term : string)
    (w w' : World) (rs : list SearchResult) :
  get_relevant_docs pdf_list search_term w = (Ok rs, w') ->
  exists c m,
    doc_collection (self w') = Some c /\ model (self w') = Some m /\
    rs = sorted (fun r => - score r)%Q
           (like_find (db (self w')) c search_term (vector_index_identifier m) 1).
Proof.
  unfold get_relevant_docs, bind.
  destruct (process_pdf pdf_list w) as [[[]|e] w1]; [|discriminate].
  intros Hq.
  pose proof (query_documents_world search_term None w1) as Hw.
  rewrite Hq in Hw; simpl in Hw; subst w'.
  apply (query_documents_ok search_term None w1 rs). now rewrite Hq.
Qed.

(** C10: on a handler fresh from [__init__] the attributes [doc_collection]
    and [model] are missing, and [get_collection], [get_model] and
    [query_documents] raise [AttributeError] and leave the handler as it
    is. *)
Theorem fresh_handler_raises_AttributeError
    (uri store : string) (tape : nat -> Q) (pos : nat)
    (search_term : string) (num_results : option Z) :
  let w := mkWorld (init uri store) tape pos in
  doc_collection (init uri store) = None /\
  model (init uri store) = None /\
  get_collection w = (Raise (AttributeError "doc_collection"), w) /\
  get_model w = (Raise (AttributeError "model"), w) /\
  query_documents search_term num_results w
    = (Raise (AttributeError "doc_collection"), w).
Proof. repeat split. Qed.

(** Once [process_pdf] has created its collection, the three operations
    succeed on the same handler. *)
Lemma process_pdf_assigns_attributes (pdf_urls : list string) (w : World)
    (search_term : string) (num_results : option Z) :
  fst (set_collection_name w) = Ok tt ->
  let w' := snd (process_pdf pdf_urls w) in
  is_ok (fst (get_collection w')) = true /\
  is_ok (fst (get_model w')) = true /\
  is_ok (fst (query_documents search_term num_results w')) = true.
Proof.
  intros Hok w'. destruct (set_collection_name_ok w Hok) as (chars & w1 & Hname).
  destruct (process_pdf_handler pdf_urls w w1 chars Hname) as (Hc & Hm & _).
  fold w' in Hc, Hm.
  rewrite (query_documents_run search_term num_results w' _ _ Hc Hm).
  unfold get_collection, get_model, getattr, get_self, bind, ret; simpl.
  rewrite Hc, Hm. repeat split.
Qed.

End Queries.

(** ** The Streamlit glue *)

Section Glue.
Context `{Ext : External}.

(** An empty question: the [if] is not taken, nothing runs. *)
Lemma main_empty_question (pdf_urls_input : string) (w : World) :
  main pdf_urls_input "" w = (Ok None, w).
Proof.
  unfold main. now rewrite andb_false_r.
Qed.

(** The list made of the text area is never empty, so a question alone
    takes the [if]. *)
Lemma main_runs_on_any_input (pdf_urls_input : string) (c : ascii) (q : string) (w : World) :
  main pdf_urls_input (String c q) w =
    (a <- get_answer_from_pdf (str_split LF pdf_urls_input) (String c q) ;; ret (Some a)) w.
Proof.
  unfold main.
  pose proof (str_split_nonempty LF pdf_urls_input) as Hne.
  destruct (str_split LF pdf_urls_input); [congruence | reflexivity].
Qed.

End Glue.

(** ** The code on concrete inputs *)

Module Runs.
Import Demo.

Lemma search_bound (d : Datalayer) (c q i : string) (n : Z) :
  (0 <= n)%Z -> (Z.of_nat (length (search d c q i n)) <= n)%Z.
Proof.
  intros Hn. unfold search, slice_to.
  destruct (0 <=? n)%Z eqn:E; [|lia].
  rewrite length_take. lia.
Qed.

Lemma tape_walk_is_draw (p i : nat) : is_draw (tape_walk (p + i)).
Proof.
  unfold tape_walk. eexists. split; [|reflexivity].
  pose proof (Nat.mod_upper_bound (p + i) 26 ltac:(lia)) as Hlt.
  assert (H0 : (0 <= Z.of_nat ((p + i) mod 26) * two53 / 26)%Z).
  { apply Z.div_pos; unfold two53; lia. }
  assert (H1 : (Z.of_nat ((p + i) mod 26) * two53 / 26 <= 25 * two53 / 26)%Z).
  { apply Z.div_le_mono; unfold two53; lia. }
  assert (H2 : (25 * two53 / 26 + 1 < two53)%Z) by reflexivity.
  lia.
Qed.

(** The two draws on either side of 5/26: the binary64 product of the
    first with 26 is 5, of the second less than 5. *)
Example choice_index_at_boundary :
  choice_index 26 (draw 1732153702834806) = 5 /\
  choice_index 26 (draw 1732153702834805) = 4.
Proof. vm_compute. split; reflexivity. Qed.

(** C1 on two locations: [process_pdf] succeeds, the first location
    extracts and chunks to two records, and the collection holds the three
    records of the second location and nothing of the first. *)
Theorem process_pdf_two_locations_keeps_last :
  let run := process_pdf (Ext := world) [url_one; url_two] (start tape_walk) in
  fst run = Ok tt /\
  (all <~ extract_text_with_page_numbers_from_url (Ext := world) url_one ;;
   Ok (chunk_text (Ext := world) all url_one))
    = Ok [mkChunk "alpha" 1 url_one; mkChunk "beta" 1 url_one] /\
  doc_collection (self (snd run)) = Some "abcdefg" /\
  collections (db (self (snd run))) !! "abcdefg"
    = Some [mkChunk "gamma" 1 url_two; mkChunk "delta" 2 url_two;
            mkChunk "epsilon" 2 url_two] /\
  dom (collections (db (self (snd run)))) = {["abcdefg"]}.
Proof. vm_compute. repeat split. Qed.

(** C2 fails on the six-page document: [get_relevant_docs] returns one
    result, where the same ingestion followed by a query with
    [num_results = 5] returns five. *)
Lemma get_relevant_docs_returns_one_of_six :
  fst (get_relevant_docs (Ext := world) [url_six] "q" (start tape_walk))
    = Ok [mkResult (mkChunk "p6" 6 url_six) (6 # 1)] /\
  exists rs5,
    fst ((process_pdf (Ext := world) [url_six] ;;;
          query_documents (Ext := world) "q" (Some 5%Z)) (start tape_walk)) = Ok rs5 /\
    length rs5 = 5 /\
    fst (get_relevant_docs (Ext := world) [url_six] "q" (start tape_walk)) <> Ok rs5.
Proof.
  split; [vm_compute; reflexivity|].
  eexists. split; [vm_compute; reflexivity|].
  split; [reflexivity|]. vm_compute. discriminate.
Qed.

(** C2 on the six-page document. *)
Lemma get_relevant_docs_asks_for_one_witness :
  get_relevant_docs (Ext := world) [url_six] "q" (start tape_walk)
    = (Ok [mkResult (mkChunk "p6" 6 url_six) (6 # 1)], six_ingested) /\
  exists c m,
    doc_collection (self six_ingested) = Some c /\ model (self six_ingested) = Some m /\
    [mkResult (mkChunk "p6" 6 url_six) (6 # 1)]
      = sorted (fun r => - score r)%Q
          (like_find (db (self six_ingested)) c "q" (vector_index_identifier m) 1).
Proof.
  assert (H : get_relevant_docs (Ext := world) [url_six] "q" (start tape_walk)
              = (Ok [mkResult (mkChunk "p6" 6 url_six) (6 # 1)], six_ingested))
    by (vm_compute; reflexivity).
  split; [exact H|].
  exact (get_relevant_docs_asks_for_one (Ext := world) _ _ _ _ _ H).
Defined.

(** C3 fails on two runs of one handler: the two collections differ and
    the two indexes declared over them have the same identifier. *)
Lemma index_identifier_shared_by_collections :
  let w1 := snd (process_pdf (Ext := world) [url_one] (start tape_walk)) in
  let w2 := snd (process_pdf (Ext := world) [url_two] w1) in
  doc_collection (self w1) = Some "abcdefg" /\
  doc_collection (self w2) = Some "jklmnop" /\
  "abcdefg" <> "jklmnop" /\
  map component_identifier (components (db (self w2)))
    = ["pymongo-docs-all-MiniLM-L6-v2"; "pymongo-docs-all-MiniLM-L6-v2"] /\
  components (db (self w2))
    = [VectorIndex "pymongo-docs-all-MiniLM-L6-v2" "abcdefg" "text" initialize_model 1000;
       VectorIndex "pymongo-docs-all-MiniLM-L6-v2" "jklmnop" "text" initialize_model 1000].
Proof. vm_compute. repeat split. discriminate. Qed.

(** C3 on one run. *)
Lemma vector_index_identifier_ignores_collection_witness :
  fst (set_collection_name (start tape_walk)) = Ok tt /\
  exists c,
    doc_collection (self (snd (process_pdf (Ext := world) [url_one] (start tape_walk))))
      = Some c /\
    components (db (self (snd (process_pdf (Ext := world) [url_one] (start tape_walk)))))
      = (components (db (self (start tape_walk)))
           ++ [VectorIndex "pymongo-docs-all-MiniLM-L6-v2" c "text" initialize_model 1000])%list.
Proof.
  assert (H : fst (set_collection_name (start tape_walk)) = Ok tt)
    by (vm_compute; reflexivity).
  split; [exact H|].
  exact (vector_index_identifier_ignores_collection (Ext := world) [url_one] _ H).
Defined.

(** C4 fails on two runs of one handler whose draws repeat: both runs
    succeed and both are given the identifier "aaaaaaa", so the second run
    inserts into the collection of the first. *)
Lemma collection_identifier_repeats :
  let run1 := process_pdf (Ext := world) [url_one] (start tape_zero) in
  let run2 := process_pdf (Ext := world) [url_two] (snd run1) in
  fst run1 = Ok tt /\ fst run2 = Ok tt /\
  doc_collection (self (snd run1)) = Some "aaaaaaa" /\
  doc_collection (self (snd run2)) = Some "aaaaaaa" /\
  collections (db (self (snd run2))) !! "aaaaaaa"
    = Some [mkChunk "alpha" 1 url_one; mkChunk "beta" 1 url_one;
            mkChunk "gamma" 1 url_two; mkChunk "delta" 2 url_two;
            mkChunk "epsilon" 2 url_two].
Proof. vm_compute. repeat split. Qed.

(** C4 on two runs that start 26 draws apart on the walking tape, and so
    pick the same positions. *)
Lemma set_collection_name_by_draws_witness :
  let w1 := start tape_walk in
  let w2 := mkWorld new_handler tape_walk 26 in
  exists name1 name2,
    fst (set_collection_name w1) = Ok tt /\
    fst (set_collection_name w2) = Ok tt /\
    doc_collection (self (snd (set_collection_name w1))) = Some name1 /\
    doc_collection (self (snd (set_collection_name w2))) = Some name2 /\
    name1 = join_chars
              (map (fun i => nth (choice_index 26 (random_tape w1 (random_pos w1 + i)))
                                 ascii_lowercase "a"%char)
                   (seq 0 7)) /\
    name2 = join_chars
              (map (fun i => nth (choice_index 26 (random_tape w2 (random_pos w2 + i)))
                                 ascii_lowercase "a"%char)
                   (seq 0 7)) /\
    String.length name1 = 7 /\
    String.length name2 = 7 /\
    Forall (fun ch => In ch ascii_lowercase) (list_ascii_of_string name1) /\
    Forall (fun ch => In ch ascii_lowercase) (list_ascii_of_string name2) /\
    (name1 = name2 <->
     forall i, i < 7 ->
       choice_index 26 (random_tape w1 (random_pos w1 + i)) =
       choice_index 26 (random_tape w2 (random_pos w2 + i))).
Proof.
  apply (set_collection_name_by_draws (start tape_walk) (mkWorld new_handler tape_walk 26)).
  - intros i _. apply tape_walk_is_draw.
  - intros i _. apply tape_walk_is_draw.
Defined.

(** Seven draws just above 5/26 name the collection "fffffff", seven draws
    one step lower "eeeeeee". *)
Example set_collection_name_at_boundary :
  doc_collection
    (self (snd (set_collection_name
                  (mkWorld new_handler (fun _ => draw 1732153702834806) 0))))
    = Some "fffffff" /\
  doc_collection
    (self (snd (set_collection_name
                  (mkWorld new_handler (fun _ => draw 1732153702834805) 0))))
    = Some "eeeeeee".
Proof. vm_compute. split; reflexivity. Qed.

(** On the walking tape the run at position 0 is named "abcdefg" and the
    run at position 7 "hijklmn": draws that pick other positions give
    another name. *)
Example set_collection_name_on_walk :
  doc_collection (self (snd (set_collection_name (start tape_walk)))) = Some "abcdefg" /\
  doc_collection (self (snd (set_collection_name (mkWorld new_handler tape_walk 26))))
    = Some "abcdefg" /\
  doc_collection (self (snd (set_collection_name (mkWorld new_handler tape_walk 7))))
    = Some "hijklmn".
Proof. vm_compute. repeat split. Qed.

(** C5 fails on a 304 response: the status is not 2xx and [download_pdf]
    raises nothing and returns the body of the response, here empty. *)
Lemma download_pdf_returns_body_on_304 :
  requests_get (External := world) url_cached = Ok (mkResponse 304 []) /\
  ~ (200 <= 304 < 300)%Z /\
  download_pdf (Ext := world) url_cached = Ok [].
Proof. repeat split. lia. Qed.

(** C5 on a 404 response. *)
Lemma download_pdf_by_status_witness :
  requests_get (External := world) url_missing = Ok (mkResponse 404 []) /\
  ((400 <= 404 < 600)%Z ->
     download_pdf (Ext := world) url_missing = Raise (HTTPError 404) /\
     forall (pre post : list string) (w : World),
       (exists e, fst (process_pdf (Ext := world) (pre ++ url_missing :: post) w) = Raise e) /\
       collections (db (self (snd (process_pdf (Ext := world) (pre ++ url_missing :: post) w))))
         = collections (db (self w)) /\
       (fst (set_collection_name w) = Ok tt ->
        Forall (fun v => is_ok (extract_text_with_page_numbers_from_url (Ext := world) v)
                         = true) pre ->
        fst (process_pdf (Ext := world) (pre ++ url_missing :: post) w)
          = Raise (HTTPError 404))) /\
  ((404 < 400 \/ 600 <= 404)%Z ->
     download_pdf (Ext := world) url_missing = Ok []).
Proof.
  split; [reflexivity|].
  exact (download_pdf_by_status (Ext := world) url_missing (mkResponse 404 []) eq_refl).
Defined.

(** The call on a list whose second location answers 404 raises that
    error. *)
Example process_pdf_raises_the_404 :
  fst (process_pdf (Ext := world) [url_one; url_missing; url_two] (start tape_walk))
  = Raise (HTTPError 404).
Proof. vm_compute. reflexivity. Qed.

(** C6 fails on [num_results = -1]: on the six ingested records
    [query_documents] returns five results, and no list has at most -1
    elements. *)
Lemma query_documents_negative_k :
  fst (query_documents (Ext := world) "q" (Some (-1)%Z) six_ingested)
    = Ok [mkResult (mkChunk "p6" 6 url_six) (6 # 1);
          mkResult (mkChunk "p5" 5 url_six) (5 # 1);
          mkResult (mkChunk "p4" 4 url_six) (4 # 1);
          mkResult (mkChunk "p3" 3 url_six) (3 # 1);
          mkResult (mkChunk "p2" 2 url_six) (2 # 1)] /\
  forall rs,
    fst (query_documents (Ext := world) "q" (Some (-1)%Z) six_ingested) = Ok rs ->
    ~ (Z.of_nat (length rs) <= -1)%Z.
Proof.
  split; [vm_compute; reflexivity|]. intros rs _. lia.
Qed.

(** C6 on the ingested six-page document, asking for three results. *)
Lemma query_documents_at_most_k_sorted_witness :
  (forall d col q i n,
     (0 <= n)%Z -> (Z.of_nat (length (search d col q i n)) <= n)%Z) /\
  doc_collection (self six_ingested) = Some "abcdefg" /\
  model (self six_ingested) = Some initialize_model /\
  exists rs,
    query_documents (Ext := world) "q" (Some 3%Z) six_ingested = (Ok rs, six_ingested) /\
    ((0 <= 3)%Z -> (Z.of_nat (length rs) <= 3)%Z) /\
    StronglySorted (fun a b => (score b <= score a)%Q) rs.
Proof.
  assert (Hc : doc_collection (self six_ingested) = Some "abcdefg")
    by (vm_compute; reflexivity).
  assert (Hm : model (self six_ingested) = Some initialize_model)
    by (vm_compute; reflexivity).
  split; [exact search_bound|]. split; [exact Hc|]. split; [exact Hm|].
  exact (query_documents_at_most_k_sorted (Ext := world) "q" (Some 3%Z) six_ingested
           "abcdefg" initialize_model search_bound Hc Hm).
Defined.

Example query_documents_three_of_six :
  fst (query_documents (Ext := world) "q" (Some 3%Z) six_ingested)
  = Ok [mkResult (mkChunk "p6" 6 url_six) (6 # 1);
        mkResult (mkChunk "p5" 5 url_six) (5 # 1);
        mkResult (mkChunk "p4" 4 url_six) (4 # 1)].
Proof. vm_compute. reflexivity. Qed.

(** C9 on an empty text area and a question: the split gives one empty
    location, the [if] is taken, [get_answer_from_pdf] runs, an ingestion
    starts (the collection is created and the index declared) and the fetch
    of the empty location raises. *)
Theorem main_empty_locations_attempts_ingestion :
  let w := start tape_walk in
  str_split LF "" = [""] /\
  main (Ext := world) "" "What is it?" w
    = (a <- get_answer_from_pdf (Ext := world) [""] "What is it?" ;; ret (Some a)) w /\
  fst (main (Ext := world) "" "What is it?" w) = Raise (RequestException "MissingSchema") /\
  doc_collection (self (snd (main (Ext := world) "" "What is it?" w))) = Some "abcdefg" /\
  length (components (db (self (snd (main (Ext := world) "" "What is it?" w))))) = 1.
Proof.
  split; [reflexivity|].
  split; [apply (main_runs_on_any_input (Ext := world) "")|].
  vm_compute. repeat split.
Qed.

End Runs.

(** ** Further properties of the handler *)

(** *** What [set_collection_name] draws and leaves *)

(** X1: when the next seven values on the tape are values of
    [random.random()], [set_collection_name] succeeds, consumes exactly
    those seven draws, names the collection by the letters of
    [string.ascii_lowercase] at the positions [floor(r * 26)], the product
    taken in binary64, and leaves the database, the model and the other
    attributes as they were. *)
Theorem set_collection_name_effect (w : World) :
  (forall i, i < 7 -> is_draw (random_tape w (random_pos w + i))) ->
  set_collection_name w =
    (Ok tt,
     mkWorld
       {| mongodb_uri := mongodb_uri (self w);
          artifact_store_path := artifact_store_path (self w);
          db := db (self w);
          doc_collection :=
            Some (join_chars
                    (map (fun i => nth (choice_index 26 (random_tape w (random_pos w + i)))
                                       ascii_lowercase "a"%char)
                         (seq 0 7)));
          model := model (self w) |}
       (random_tape w) (random_pos w + 7)).
Proof.
  intros Hdraws. unfold set_collection_name, bind.
  rewrite (random_choices_run ascii_lowercase "a"%char 7 w ltac:(simpl; lia)
             (fun i Hi => is_draw_range _ (Hdraws i Hi))).
  reflexivity.
Qed.

Section MoreIngestion.
Context `{Ext : External}.

(** X2: with an empty list of locations [process_pdf] raises
    [UnboundLocalError] for [chunks_with_pages], after it has named a new
    collection, bound the model and declared the index; no record is
    inserted. *)
Theorem process_pdf_no_locations (w : World) :
  fst (set_collection_name w) = Ok tt ->
  exists c,
    fst (process_pdf [] w) = Raise (UnboundLocalError "chunks_with_pages") /\
    doc_collection (self (snd (process_pdf [] w))) = Some c /\
    model (self (snd (process_pdf [] w))) = Some initialize_model /\
    collections (db (self (snd (process_pdf [] w)))) = collections (db (self w)) /\
    components (db (self (snd (process_pdf [] w)))) =
      (components (db (self w))
         ++ [VectorIndex "pymongo-docs-all-MiniLM-L6-v2" c "text" initialize_model 1000])%list.
Proof.
  intros Hok. destruct (set_collection_name_ok w Hok) as (chars & w1 & Hname).
  exists (join_chars chars).
  rewrite (process_pdf_run [] w w1 chars Hname). cbn. repeat split.
Qed.

(** X3: when every location extracts and the last one yields at least one
    chunk, [process_pdf] succeeds and appends to the collection it has
    just named the records of the last location, and only those; every
    other collection is left as it was. *)
Theorem process_pdf_stores_last_location (pre : list string) (u : string)
    (all : list (string * nat)) (w : World) :
  fst (set_collection_name w) = Ok tt ->
  Forall (fun v => is_ok (extract_text_with_page_numbers_from_url v) = true) pre ->
  extract_text_with_page_numbers_from_url u = Ok all ->
  chunk_text all u <> [] ->
  exists c,
    fst (process_pdf (pre ++ [u]) w) = Ok tt /\
    doc_collection (self (snd (process_pdf (pre ++ [u]) w))) = Some c /\
    collections (db (self (snd (process_pdf (pre ++ [u]) w)))) !! c
      = Some (default [] (collections (db (self w)) !! c) ++ chunk_text all u)%list /\
    forall k, k <> c ->
      collections (db (self (snd (process_pdf (pre ++ [u]) w)))) !! k
        = collections (db (self w)) !! k.
Proof.
  intros Hok Hpre Hu Hne. destruct (set_collection_name_ok w Hok) as (chars & w1 & Hname).
  exists (join_chars chars).
  rewrite (process_pdf_inserts_last_only pre u all w w1 chars Hname Hpre Hu Hne).
  cbn [fst snd self ingested db collections doc_collection].
  split; [reflexivity|]. split; [reflexivity|]. split.
  - apply lookup_insert_eq.
  - intros k Hk. now apply lookup_insert_ne.
Qed.

(** X4: the error of the first location that does not extract is the error
    of [process_pdf]; the locations after it play no part, no record is
    inserted, and the collection named and the index declared for the run
    stay behind. *)
Theorem process_pdf_first_error (pre post : list string) (u : string) (e : exn)
    (w : World) :
  fst (set_collection_name w) = Ok tt ->
  Forall (fun v => is_ok (extract_text_with_page_numbers_from_url v) = true) pre ->
  extract_text_with_page_numbers_from_url u = Raise e ->
  exists c,
    fst (process_pdf (pre ++ u :: post) w) = Raise e /\
    collections (db (self (snd (process_pdf (pre ++ u :: post) w))))
      = collections (db (self w)) /\
    doc_collection (self (snd (process_pdf (pre ++ u :: post) w))) = Some c /\
    components (db (self (snd (process_pdf (pre ++ u :: post) w)))) =
      (components (db (self w))
         ++ [VectorIndex "pymongo-docs-all-MiniLM-L6-v2" c "text" initialize_model 1000])%list.
Proof.
  intros Hok Hpre Hu. destruct (set_collection_name_ok w Hok) as (chars & w1 & Hname).
  exists (join_chars chars).
  rewrite (process_pdf_run _ w w1 chars Hname).
  rewrite (process_pdf_loop_first_raise pre post u e None _ Hpre Hu).
  cbn. repeat split.
Qed.

(** X5: whatever the locations and whatever the outcome, [process_pdf]
    removes and alters nothing that is stored: every collection keeps its
    records, in order, as a prefix of what it holds afterwards, and the
    components added before are a prefix of the components afterwards. *)
Theorem process_pdf_keeps_records (pdf_urls : list string) (w : World) (k : string) :
  (exists added,
     default [] (collections (db (self (snd (process_pdf pdf_urls w)))) !! k)
       = (default [] (collections (db (self w)) !! k) ++ added)%list) /\
  (exists declared,
     components (db (self (snd (process_pdf pdf_urls w))))
       = (components (db (self w)) ++ declared)%list).
Proof.
  destruct (random_choices ascii_lowercase 7 w) as [[chars|e] w1] eqn:Hname.
  - rewrite (process_pdf_run pdf_urls w w1 chars Hname).
    destruct (fst (process_pdf_loop pdf_urls None _)) as [[[|chunk chunks]|]|e];
      cbn [snd self ingested prepared db collections components].
    + split; [exists []; now rewrite app_nil_r | eexists; reflexivity].
    + split; [|eexists; reflexivity].
      destruct (decide (join_chars chars = k)) as [<-|Hne].
      * rewrite lookup_insert_eq. cbn. eexists; reflexivity.
      * rewrite lookup_insert_ne by exact Hne. exists []. now rewrite app_nil_r.
    + split; [exists []; now rewrite app_nil_r | eexists; reflexivity].
    + split; [exists []; now rewrite app_nil_r | eexists; reflexivity].
  - rewrite (process_pdf_no_collection pdf_urls w w1 e Hname). cbn [snd].
    destruct (random_choices_world ascii_lowercase 7 w) as [Hself _].
    rewrite Hname in Hself; cbn [snd] in Hself. rewrite Hself.
    split; exists []; now rewrite app_nil_r.
Qed.

End MoreIngestion.

(** *** From pages to records *)

Section MoreChunking.
Context `{Ext : External}.

Lemma chunk_text_cons (tp : string * nat) (all : list (string * nat)) (u : string) :
  chunk_text (tp :: all) u = (page_chunks u tp ++ chunk_text all u)%list.
Proof. now rewrite !chunk_text_flat_map. Qed.

Lemma page_chunks_page (u : string) (tp : string * nat) :
  Forall (fun r => page r = snd tp) (page_chunks u tp).
Proof.
  unfold page_chunks. apply List.Forall_forall. intros r Hr.
  apply in_map_iff in Hr as [c [<- _]]. reflexivity.
Qed.

Lemma chunk_text_pages_from (all : list (string * nat)) (u : string) :
  Forall (fun r => In (page r) (map snd all)) (chunk_text all u).
Proof.
  induction all as [|tp all IH].
  - rewrite chunk_text_flat_map. constructor.
  - rewrite chunk_text_cons. apply Forall_app. split.
    + eapply Forall_impl; [apply page_chunks_page|].
      intros r Hr. left. now symmetry.
    + eapply Forall_impl; [exact IH|]. intros r Hr. now right.
Qed.

Lemma chunk_text_url (all : list (string * nat)) (u : string) :
  Forall (fun r => url r = u) (chunk_text all u).
Proof.
  rewrite chunk_text_flat_map. apply List.Forall_forall.
  intros r Hr. apply in_flat_map in Hr as [tp [_ Hr]].
  unfold page_chunks in Hr. apply in_map_iff in Hr as [c [<- _]]. reflexivity.
Qed.

(** Chunking keeps the order of the pages. *)
Lemma chunk_text_pages_sorted (all : list (string * nat)) (u : string) :
  StronglySorted le (map snd all) ->
  StronglySorted le (map page (chunk_text all u)).
Proof.
  induction all as [|tp all IH]; intros Hs.
  - rewrite chunk_text_flat_map. constructor.
  - simpl in Hs. apply StronglySorted_inv in Hs as [Hs Hle].
    rewrite chunk_text_cons, map_app.
    pose proof (page_chunks_page u tp) as Hpg.
    pose proof (chunk_text_pages_from all u) as Hfrom.
    induction Hpg as [|r rs Hr Hrs IHrs]; simpl; [now apply IH|].
    constructor; [exact IHrs|].
    rewrite Forall_app. split.
    + apply Forall_map. eapply Forall_impl; [exact Hrs|].
      intros r' Hr'. simpl in Hr'. rewrite Hr, Hr'. apply Nat.le_refl.
    + apply Forall_map. eapply Forall_impl; [exact Hfrom|].
      intros r' Hr'. simpl in Hr'. rewrite Hr.
      rewrite List.Forall_forall in Hle. now apply Hle.
Qed.

Lemma seq_StronglySorted (start len : nat) : StronglySorted le (seq start len).
Proof.
  revert start; induction len as [|len IH]; intros start; simpl; constructor.
  - apply IH.
  - apply List.Forall_forall. intros x Hx. apply in_seq in Hx. lia.
Qed.

(** X6: for a document that downloads and opens with n pages, the records
    that chunking makes of the extracted text all carry the document's URL
    and a page number from 1 to n, and they come in non-decreasing order
    of page number. *)
Theorem extracted_chunks_follow_pages
    (pdf_url : string) (pdf_bytes : bytes) (document : list Page) :
  download_pdf pdf_url = Ok pdf_bytes ->
  fitz_open pdf_bytes = Ok document ->
  exists all,
    extract_text_with_page_numbers_from_url pdf_url = Ok all /\
    Forall (fun r => url r = pdf_url /\ 1 <= page r <= length document)
           (chunk_text all pdf_url) /\
    StronglySorted le (map page (chunk_text all pdf_url)).
Proof.
  intros Hdl Hopen. unfold extract_text_with_page_numbers_from_url.
  rewrite Hdl; simpl. rewrite Hopen; simpl.
  eexists; split; [reflexivity|].
  rewrite extract_loop; simpl.
  set (all := map _ (enumerate document 1)).
  assert (Hsnd : map snd all = seq 1 (length document)) by apply extract_markers_snd.
  split.
  - pose proof (chunk_text_pages_from all pdf_url) as Hfrom.
    pose proof (chunk_text_url all pdf_url) as Hurl.
    rewrite List.Forall_forall in *. intros r Hr. split; [now apply Hurl|].
    specialize (Hfrom r Hr). rewrite Hsnd in Hfrom. apply in_seq in Hfrom. lia.
  - apply chunk_text_pages_sorted. rewrite Hsnd. apply seq_StronglySorted.
Qed.

End MoreChunking.

Section MoreChunkTexts.
Context `{Ext : External}.

(** X7: the texts of the records of [chunk_text], in order, are the chunks
    the splitter makes of the first page's text, then those of the second
    page's text, and so on; a page whose text the splitter cuts into no
    chunk contributes no record, and the number of records is the sum of
    the numbers of chunks of the pages. *)
Theorem chunk_text_texts (all : list (string * nat)) (u : string) :
  map text (chunk_text all u) = flat_map (fun tp => create_documents [fst tp]) all /\
  length (chunk_text all u)
    = list_sum (map (fun tp => length (create_documents [fst tp])) all).
Proof.
  induction all as [|tp all [IHt IHl]].
  - rewrite chunk_text_flat_map. split; reflexivity.
  - rewrite chunk_text_cons. split.
    + rewrite map_app, IHt. simpl. f_equal.
      unfold page_chunks. rewrite map_map. simpl. apply map_id.
    + rewrite length_app, IHl. simpl. f_equal.
      unfold page_chunks. apply length_map.
Qed.

End MoreChunkTexts.

(** *** The order of the results *)

Lemma Qeq_bool_opp (a s : Q) : Qeq_bool (- a) (- s) = Qeq_bool a s.
Proof.
  destruct (Qeq_bool a s) eqn:E1; destruct (Qeq_bool (- a) (- s)) eqn:E2;
    try reflexivity; exfalso.
  - apply Qeq_bool_iff in E1.
    assert (H : Qeq_bool (- a) (- s) = true)
      by (apply Qeq_bool_iff; rewrite E1; reflexivity).
    congruence.
  - apply Qeq_bool_iff in E2.
    assert (H : Qeq_bool a s = true).
    { apply Qeq_bool_iff. rewrite <- (Qopp_involutive a), E2. apply Qopp_involutive. }
    congruence.
Qed.

Lemma insert_by_filter {A} (key : A -> Q) (s : Q) (x : A) (l : list A) :
  List.filter (fun r => Qeq_bool (key r) s) (insert_by key x l)
  = List.filter (fun r => Qeq_bool (key r) s) (x :: l).
Proof.
  induction l as [|y l IH]; [reflexivity|].
  cbn [insert_by]. destruct (Qle_bool (key x) (key y)) eqn:E; [reflexivity|].
  cbn [List.filter] in *. rewrite IH.
  destruct (Qeq_bool (key x) s) eqn:Ex; destruct (Qeq_bool (key y) s) eqn:Ey;
    try reflexivity.
  exfalso. apply Qeq_bool_iff in Ex, Ey.
  assert (H : Qle_bool (key x) (key y) = true)
    by (apply Qle_bool_iff; rewrite Ex, Ey; apply Qle_refl).
  congruence.
Qed.

(** [sorted] is stable: the elements of one key keep their order. *)
Lemma sorted_filter {A} (key : A -> Q) (s : Q) (l : list A) :
  List.filter (fun r => Qeq_bool (key r) s) (sorted key l)
  = List.filter (fun r => Qeq_bool (key r) s) l.
Proof.
  induction l as [|x l IH]; [reflexivity|].
  cbn [sorted]. rewrite insert_by_filter. cbn [List.filter]. now rewrite IH.
Qed.

Lemma bind_ok {A B} (c : M A) (k : A -> M B) (w w' : World) (a : A) :
  c w = (Ok a, w') -> bind c k w = k a w'.
Proof. intros H. unfold bind. now rewrite H. Qed.

Lemma bind_raise {A B} (c : M A) (k : A -> M B) (w w' : World) (e : exn) :
  c w = (Raise e, w') -> bind c k w = (Raise e, w').
Proof. intros H. unfold bind. now rewrite H. Qed.

Section MoreQueries.
Context `{Ext : External}.

(** X8: on a handler that has its collection and model, [query_documents]
    returns exactly the results the store gave for the query, none lost
    and none added, and results of equal score stay in the order the store
    gave them. *)
Theorem query_documents_keeps_store_results
    (search_term : string) (num_results : option Z)
    (w : World) (c : string) (m : Model) :
  doc_collection (self w) = Some c ->
  model (self w) = Some m ->
  exists rs,
    fst (query_documents search_term num_results w) = Ok rs /\
    Permutation
      (like_find (db (self w)) c search_term (vector_index_identifier m)
                 (default 1%Z num_results)) rs /\
    forall s,
      List.filter (fun r => Qeq_bool (score r) s) rs
      = List.filter (fun r => Qeq_bool (score r) s)
          (like_find (db (self w)) c search_term (vector_index_identifier m)
                     (default 1%Z num_results)).
Proof.
  intros Hc Hm. rewrite (query_documents_run _ _ _ c m Hc Hm). cbn [fst].
  eexists. split; [reflexivity|]. split; [apply sorted_perm|].
  intros s.
  rewrite (List.filter_ext _ (fun r => Qeq_bool (- score r) (- s))
             (fun r => eq_sym (Qeq_bool_opp (score r) s))).
  rewrite (sorted_filter (fun r => - score r)%Q (- s)%Q).
  apply List.filter_ext. intros r. apply Qeq_bool_opp.
Qed.

Lemma process_pdf_ok_attributes (pdf_urls : list string) (w w1 : World) :
  process_pdf pdf_urls w = (Ok tt, w1) ->
  exists c, doc_collection (self w1) = Some c /\ model (self w1) = Some initialize_model.
Proof.
  intros Hrun.
  destruct (random_choices ascii_lowercase 7 w) as [[chars|e] w0] eqn:Hname.
  - destruct (process_pdf_handler pdf_urls w w0 chars Hname) as (Hc & Hm & _).
    rewrite Hrun in Hc, Hm. cbn [snd] in Hc, Hm. now exists (join_chars chars).
  - rewrite (process_pdf_no_collection pdf_urls w w0 e Hname) in Hrun. discriminate.
Qed.

(** X9: an error of the ingestion is the error of [get_relevant_docs] and
    of [get_answer_from_pdf]: no query is run, no chat model is
    registered, and the state is the one the ingestion left. *)
Theorem ingestion_error_surfaces
    (pdf_path : list string) (question : string) (w w1 : World) (e : exn) :
  process_pdf pdf_path w = (Raise e, w1) ->
  get_relevant_docs pdf_path question w = (Raise e, w1) /\
  get_answer_from_pdf pdf_path question w = (Raise e, w1).
Proof.
  intros Hrun. unfold get_answer_from_pdf, get_relevant_docs, bind.
  rewrite Hrun. split; reflexivity.
Qed.

(** X10: after an ingestion that succeeded, [get_answer_from_pdf] first
    constructs the chat component; if the constructor raises, that error is
    raised and the data layer is as the ingestion left it.  Otherwise it
    registers the chat model "gpt-3.5-turbo" in the handler's data layer,
    touches no collection, asks the store for 5 results on the index
    "pymongo-docs-all-MiniLM-L6-v2" over the collection just ingested, and
    then returns the chat model's output with the page labels (numbered
    from 1), texts and URLs of those results, or raises the chat model's
    error; it raises nothing else. *)
Theorem get_answer_from_pdf_after_ingestion
    (pdf_path : list string) (question : string) (w w1 : World) :
  process_pdf pdf_path w = (Ok tt, w1) ->
  exists c,
    doc_collection (self w1) = Some c /\
    match openai_chat_completion "gpt-3.5-turbo" prompt with
    | Raise e => get_answer_from_pdf pdf_path question w = (Raise e, w1)
    | Ok _ =>
        let d := mkDatalayer
                   (collections (db (self w1)))
                   (components (db (self w1))
                      ++ [OpenAIChatCompletion "gpt-3.5-turbo" prompt])%list in
        let sources := like_find d c question "pymongo-docs-all-MiniLM-L6-v2" 5 in
        db (self (snd (get_answer_from_pdf pdf_path question w))) = d /\
        match chat_predict prompt (map (fun r => text (doc r)) sources) question with
        | Ok output =>
            exists a,
              fst (get_answer_from_pdf pdf_path question w) = Ok a /\
              answer a = output /\
              links a = str_join nl
                          (map (fun '(i, r) =>
                                  "[" ++ pretty (i + 1) ++ "] Page "
                                      ++ pretty (page (doc r)))
                               (enumerate sources 0)) /\
              refs a = str_join nl (map (fun r => text (doc r)) sources) /\
              ref_url a = str_join nl (map (fun r => url (doc r)) sources)
        | Raise e => fst (get_answer_from_pdf pdf_path question w) = Raise e
        end
    end.
Proof.
  intros Hrun.
  destruct (process_pdf_ok_attributes pdf_path w w1 Hrun) as (c & Hc & Hm).
  exists c. split; [exact Hc|].
  assert (Hdocs : get_relevant_docs pdf_path question w
                  = (Ok (sorted (fun r => - score r)%Q
                           (like_find (db (self w1)) c question
                              (vector_index_identifier initialize_model) 1)), w1)).
  { unfold get_relevant_docs. rewrite (bind_ok _ _ _ _ _ Hrun).
    apply (query_documents_run question None w1 c initialize_model Hc Hm). }
  assert (Hcol : get_collection w1 = (Ok c, w1)).
  { unfold get_collection, getattr, get_self, bind, ret. cbn [self]. now rewrite Hc. }
  assert (Hmod : get_model w1 = (Ok initialize_model, w1)).
  { unfold get_model, getattr, get_self, bind, ret. cbn [self]. now rewrite Hm. }
  unfold get_answer_from_pdf.
  rewrite (bind_ok _ _ _ _ _ Hdocs).
  rewrite (bind_ok get_db _ w1 w1 (db (self w1)) eq_refl).
  rewrite (bind_ok _ _ _ _ _ Hcol).
  rewrite (bind_ok _ _ _ _ _ Hmod).
  destruct (openai_chat_completion "gpt-3.5-turbo" prompt) as [[]|e0].
  - rewrite (bind_ok (lift (Ok tt)) _ w1 w1 tt eq_refl).
    rewrite (bind_ok (db_add _) _ w1 _ tt eq_refl).
    rewrite (bind_ok get_self _ _ _ _ eq_refl).
    cbn [self db collections components].
    change (vector_index_identifier initialize_model) with "pymongo-docs-all-MiniLM-L6-v2".
    unfold bind, lift, ret.
    destruct (chat_predict prompt _ question) as [output|e]; cbn [fst snd self db].
    + split; [reflexivity|]. eexists. repeat split.
    + split; reflexivity.
  - apply (bind_raise (lift (Raise e0)) _ w1 w1 e0 eq_refl).
Qed.

(** X11: the script runs [get_answer_from_pdf], on the lines of the text
    area, exactly when the question is not empty; what the text area holds
    plays no part in the decision, and with an empty question nothing runs
    and nothing changes. *)
Theorem main_runs_iff_question (pdf_urls_input question : string) (w : World) :
  main pdf_urls_input question w =
    if bool_of_str question
    then (a <- get_answer_from_pdf (str_split LF pdf_urls_input) question ;;
          ret (Some a)) w
    else (Ok None, w).
Proof.
  destruct question as [|c q].
  - apply main_empty_question.
  - apply main_runs_on_any_input.
Qed.

End MoreQueries.

(** *** The lines of the text area *)

Lemma str_split_join (sep : ascii) (s : string) :
  str_join (String sep "") (str_split sep s) = s.
Proof.
  unfold str_join. induction s as [|c s IH]; [reflexivity|].
  cbn [str_split]. pose proof (str_split_nonempty sep s) as Hne.
  destruct (Ascii.eqb c sep) eqn:E.
  - apply Ascii.eqb_eq in E. subst c.
    destruct (str_split sep s) as [|h t]; [congruence|].
    cbn [String.concat] in *. now rewrite IH.
  - destruct (str_split sep s) as [|h t]; [congruence|].
    destruct t as [|h' t]; cbn [String.concat] in *; now rewrite <- IH.
Qed.

Lemma str_split_count (sep : ascii) (s : string) :
  length (str_split sep s) = S (count_occ Ascii.ascii_dec (list_ascii_of_string s) sep).
Proof.
  induction s as [|c s IH]; [reflexivity|].
  cbn [str_split list_ascii_of_string count_occ].
  pose proof (str_split_nonempty sep s) as Hne.
  destruct (Ascii.eqb c sep) eqn:E.
  - apply Ascii.eqb_eq in E. subst c.
    destruct (Ascii.ascii_dec sep sep) as [_|Hn]; [|congruence].
    simpl. now rewrite IH.
  - apply Ascii.eqb_neq in E.
    destruct (Ascii.ascii_dec c sep) as [He|_]; [congruence|].
    rewrite <- IH. destruct (str_split sep s); [congruence | reflexivity].
Qed.

Lemma str_split_pieces (sep : ascii) (s : string) :
  Forall (fun piece => ~ In sep (list_ascii_of_string piece)) (str_split sep s).
Proof.
  induction s as [|c s IH]; [repeat constructor; simpl; tauto|].
  cbn [str_split]. destruct (Ascii.eqb c sep) eqn:E.
  - constructor; [simpl; tauto | exact IH].
  - apply Ascii.eqb_neq in E.
    destruct (str_split sep s) as [|h t]; [repeat constructor; simpl; intuition congruence|].
    apply Forall_cons in IH as [Hh Ht]. constructor; [|exact Ht].
    simpl. intros [Hc|Hin]; [congruence | now apply Hh].
Qed.

Lemma str_split_trailing (sep : ascii) (s : string) :
  str_split sep (s ++ String sep "") = (str_split sep s ++ [""])%list.
Proof.
  induction s as [|c s IH].
  - change (str_split sep (String sep "") = [""; ""]).
    cbn [str_split]. now rewrite Ascii.eqb_refl.
  - change (String c s ++ String sep "") with (String c (s ++ String sep "")).
    cbn [str_split]. rewrite IH.
    pose proof (str_split_nonempty sep s) as Hne.
    destruct (Ascii.eqb c sep); [reflexivity|].
    destruct (str_split sep s); [congruence | reflexivity].
Qed.

(** X12: the list the script makes of the text area by [split] holds the
    lines of the text: joining it with the separator gives the text back,
    it has one element more than the text has separators, no element
    contains the separator, and a text that ends in the separator gives
    an empty last element. *)
Theorem str_split_lines (sep : ascii) (s : string) :
  str_join (String sep "") (str_split sep s) = s /\
  length (str_split sep s) = S (count_occ Ascii.ascii_dec (list_ascii_of_string s) sep) /\
  Forall (fun piece => ~ In sep (list_ascii_of_string piece)) (str_split sep s) /\
  str_split sep (s ++ String sep "") = (str_split sep s ++ [""])%list.
Proof.
  split; [apply str_split_join|].
  split; [apply str_split_count|].
  split; [apply str_split_pieces | apply str_split_trailing].
Qed.

(** *** How extraction fails *)

Section ExtractionErrors.
Context `{Ext : External}.

(** X13: extraction of a location raises [e] exactly when the request
    raises [e], or the response has a status from 400 to 599 and [e] is the
    [HTTPError] of that status, or the body is returned and opening it as a
    document raises [e]. *)
Theorem extract_raises_iff (pdf_url : string) (e : exn) :
  extract_text_with_page_numbers_from_url pdf_url = Raise e <->
  requests_get pdf_url = Raise e \/
  (exists response,
     requests_get pdf_url = Ok response /\
     (400 <= status_code response < 600)%Z /\
     e = HTTPError (status_code response)) \/
  (exists response,
     requests_get pdf_url = Ok response /\
     (status_code response < 400 \/ 600 <= status_code response)%Z /\
     fitz_open (content response) = Raise e).
Proof.
  unfold extract_text_with_page_numbers_from_url, download_pdf, raise_for_status.
  destruct (requests_get pdf_url) as [response|e0]; cbn [rbind].
  - destruct (400 <=? status_code response)%Z eqn:E1;
      destruct (status_code response <? 600)%Z eqn:E2; cbn [andb rbind].
    1: { split.
         - intros [= <-]. right; left. exists response. repeat split; lia.
         - intros [H | [(r & [= <-] & _ & ->) | (r & [= <-] & Hst & _)]];
             [discriminate | reflexivity | lia]. }
    all: destruct (fitz_open (content response)) as [document|e1] eqn:Ef; cbn [rbind];
      (split;
       [ intros H;
         first [ discriminate
               | injection H as <-; right; right; exists response;
                 repeat split; [lia | exact Ef] ]
       | intros [H | [(r & [= <-] & Hst & _) | (r & [= <-] & _ & H)]];
         [discriminate | lia | congruence] ]).
  - split.
    + intros [= <-]. now left.
    + intros [[= <-] | [(r & H & _) | (r & H & _)]];
        [reflexivity | discriminate | discriminate].
Qed.

End ExtractionErrors.

(** ** The further properties on concrete inputs *)

Module MoreRuns.
Import Demo.

(** X1 on the walking tape. *)
Lemma set_collection_name_effect_witness :
  (forall i, i < 7 -> is_draw (tape_walk (0 + i))) /\
  set_collection_name (start tape_walk) =
    (Ok tt,
     mkWorld
       {| mongodb_uri := "mongomock://test";
          artifact_store_path := "./data/";
          db := mkDatalayer ∅ [];
          doc_collection := Some "abcdefg";
          model := None |}
       tape_walk 7).
Proof.
  split; [intros i _; apply Runs.tape_walk_is_draw|].
  exact (set_collection_name_effect (start tape_walk)
           (fun i _ => Runs.tape_walk_is_draw 0 i)).
Defined.

(** X2 on a fresh handler. *)
Lemma process_pdf_no_locations_witness :
  fst (set_collection_name (start tape_walk)) = Ok tt /\
  exists c,
    fst (process_pdf (Ext := world) [] (start tape_walk))
      = Raise (UnboundLocalError "chunks_with_pages") /\
    doc_collection (self (snd (process_pdf (Ext := world) [] (start tape_walk)))) = Some c /\
    model (self (snd (process_pdf (Ext := world) [] (start tape_walk))))
      = Some initialize_model /\
    collections (db (self (snd (process_pdf (Ext := world) [] (start tape_walk)))))
      = collections (db (self (start tape_walk))) /\
    components (db (self (snd (process_pdf (Ext := world) [] (start tape_walk))))) =
      (components (db (self (start tape_walk)))
         ++ [VectorIndex "pymongo-docs-all-MiniLM-L6-v2" c "text" initialize_model 1000])%list.
Proof.
  assert (H : fst (set_collection_name (start tape_walk)) = Ok tt)
    by (vm_compute; reflexivity).
  split; [exact H|].
  exact (process_pdf_no_locations (Ext := world) (start tape_walk) H).
Defined.

(** X3 on two locations. *)
Lemma process_pdf_stores_last_location_witness :
  let w := start tape_walk in
  let all := [("gamma", 1); ("delta epsilon", 2)] in
  exists c,
    fst (process_pdf (Ext := world) ([url_one] ++ [url_two]) w) = Ok tt /\
    doc_collection (self (snd (process_pdf (Ext := world) ([url_one] ++ [url_two]) w)))
      = Some c /\
    collections (db (self (snd (process_pdf (Ext := world) ([url_one] ++ [url_two]) w)))) !! c
      = Some (default [] (collections (db (self w)) !! c)
                ++ chunk_text (Ext := world) all url_two)%list /\
    forall k, k <> c ->
      collections (db (self (snd (process_pdf (Ext := world) ([url_one] ++ [url_two]) w)))) !! k
        = collections (db (self w)) !! k.
Proof.
  apply (process_pdf_stores_last_location (Ext := world) [url_one] url_two
           [("gamma", 1); ("delta epsilon", 2)] (start tape_walk)).
  - vm_compute; reflexivity.
  - repeat constructor.
  - reflexivity.
  - vm_compute. discriminate.
Defined.

(** X4 on a list whose second location answers 404. *)
Lemma process_pdf_first_error_witness :
  let w := start tape_walk in
  let urls := ([url_one] ++ url_missing :: [url_two])%list in
  exists c,
    fst (process_pdf (Ext := world) urls w) = Raise (HTTPError 404) /\
    collections (db (self (snd (process_pdf (Ext := world) urls w))))
      = collections (db (self w)) /\
    doc_collection (self (snd (process_pdf (Ext := world) urls w))) = Some c /\
    components (db (self (snd (process_pdf (Ext := world) urls w)))) =
      (components (db (self w))
         ++ [VectorIndex "pymongo-docs-all-MiniLM-L6-v2" c "text" initialize_model 1000])%list.
Proof.
  apply (process_pdf_first_error (Ext := world) [url_one] [url_two] url_missing
           (HTTPError 404) (start tape_walk)).
  - vm_compute; reflexivity.
  - repeat constructor.
  - reflexivity.
Defined.

(** X6 on the two-page document. *)
Lemma extracted_chunks_follow_pages_witness :
  exists all,
    extract_text_with_page_numbers_from_url (Ext := world) url_two = Ok all /\
    Forall (fun r => url r = url_two /\ 1 <= page r <= 2)
           (chunk_text (Ext := world) all url_two) /\
    StronglySorted le (map page (chunk_text (Ext := world) all url_two)).
Proof.
  exact (extracted_chunks_follow_pages (Ext := world) url_two [Byte.x32]
           ["gamma"; "delta epsilon"] eq_refl eq_refl).
Defined.

(** X8 on the ingested six-page document. *)
Lemma query_documents_keeps_store_results_witness :
  exists rs,
    fst (query_documents (Ext := world) "q" (Some 3%Z) six_ingested) = Ok rs /\
    Permutation
      (search (db (self six_ingested)) "abcdefg" "q"
              (vector_index_identifier initialize_model) 3) rs /\
    forall s,
      List.filter (fun r => Qeq_bool (score r) s) rs
      = List.filter (fun r => Qeq_bool (score r) s)
          (search (db (self six_ingested)) "abcdefg" "q"
                  (vector_index_identifier initialize_model) 3).
Proof.
  apply (query_documents_keeps_store_results (Ext := world) "q" (Some 3%Z) six_ingested
           "abcdefg" initialize_model).
  - vm_compute; reflexivity.
  - vm_compute; reflexivity.
Defined.

(** X9 on a location that answers 404. *)
Lemma ingestion_error_surfaces_witness :
  let w := start tape_walk in
  let w1 := snd (process_pdf (Ext := world) [url_missing] w) in
  process_pdf (Ext := world) [url_missing] w = (Raise (HTTPError 404), w1) /\
  get_relevant_docs (Ext := world) [url_missing] "q" w = (Raise (HTTPError 404), w1) /\
  get_answer_from_pdf (Ext := world) [url_missing] "q" w = (Raise (HTTPError 404), w1).
Proof.
  assert (H : process_pdf (Ext := world) [url_missing] (start tape_walk)
              = (Raise (HTTPError 404),
                 snd (process_pdf (Ext := world) [url_missing] (start tape_walk))))
    by (vm_compute; reflexivity).
  split; [exact H|].
  exact (ingestion_error_surfaces (Ext := world) [url_missing] "q" _ _ _ H).
Defined.

(** X10 on the two-page document. *)
Lemma get_answer_from_pdf_after_ingestion_witness :
  let w := start tape_walk in
  let w1 := snd (process_pdf (Ext := world) [url_two] w) in
  process_pdf (Ext := world) [url_two] w = (Ok tt, w1) /\
  exists a,
    fst (get_answer_from_pdf (Ext := world) [url_two] "q" w) = Ok a /\
    answer a = "42" /\
    length (components (db (self (snd (get_answer_from_pdf (Ext := world) [url_two] "q" w)))))
      = 2.
Proof.
  assert (H : process_pdf (Ext := world) [url_two] (start tape_walk)
              = (Ok tt, snd (process_pdf (Ext := world) [url_two] (start tape_walk))))
    by (vm_compute; reflexivity).
  split; [exact H|].
  destruct (get_answer_from_pdf_after_ingestion (Ext := world) [url_two] "q" _ _ H)
    as (c & Hc & Hres).
  cbn [openai_chat_completion chat_predict world] in Hres.
  destruct Hres as (Hdb & a & Ha & Hans & _).
  exists a. split; [exact Ha|]. split; [exact Hans|].
  rewrite Hdb. vm_compute. reflexivity.
Defined.

End MoreRuns.
